(** * Large-Dataset-EDA-Automation: generator, query stage and report stage

    A shallow embedding of [generate_dummy_data.py] and
    [automated_eda_duckdb.py].

    Conventions of the embedding:
    - DOUBLE / float64 values are modelled as exact rationals [Q]; the
      rounding error of binary floating point is not modelled.
    - BIGINT / int64 values are modelled as [Z] (no overflow is reachable
      from the generated data).
    - A TIMESTAMP is the number of microseconds since the epoch, a DATE the
      number of days since the epoch.
    - Calls into pandas, seaborn, matplotlib and DuckDB are modelled by what
      they return; the control flow around them is the script's.  One call
      fails on tables the report stage is meant for: [describe] raises when
      its selection is empty, which the numerical section does not guard
      against; this exception is part of the model.  Rendering failures on
      unusual columns (duplicate labels, complex numbers) are not. *)

From Stdlib Require Import QArith Qround Lqa.
From stdpp Require Import gmap strings list sorting pretty.

Local Open Scope Z_scope.

(** ** Transaction records (the schema written by the generator) *)

Record Transaction := {
  transaction_id : Z;
  product_id : Z;
  customer_id : Z;
  transaction_date : Z;
  quantity : Z;
  price_per_item : Q;
  store_location : string;
  product_category : string
}.

(** ** SQL building blocks used by the two report queries *)

Module SQL.

Definition micros_per_day : Z := 86400000000.

(** [CAST(ts AS DATE)]: the calendar day a timestamp falls on. *)
Definition cast_date (ts : Z) : Z := ts `div` micros_per_day.

(** [GROUP BY key]: hash aggregation, every group keeps its rows in
    table order. *)
Definition group_by `{Countable K} {A} (key : A → K) (rows : list A)
    : gmap K (list A) :=
  foldr (λ r m, <[key r := r :: default [] (m !! key r)]> m) ∅ rows.

Definition SUM (xs : list Q) : Q := foldr Qplus 0%Q xs.

Definition SUMZ (xs : list Z) : Z := foldr Z.add 0 xs.

Definition COUNT {A} (xs : list A) : Z := Z.of_nat (length xs).

Definition COUNT_DISTINCT (xs : list Z) : Z :=
  Z.of_nat (size (list_to_set (C := gset Z) xs)).

Definition AVG (xs : list Q) : Q := (SUM xs / inject_Z (COUNT xs))%Q.

(** [ROUND(x, 2)] on a DOUBLE: scale, round half away from zero, unscale. *)
Definition round_half_away (x : Q) : Z :=
  if Qle_bool 0 x then Qfloor (x + (1 # 2)) else Qceiling (x - (1 # 2)).

Definition ROUND2 (x : Q) : Q := (round_half_away (x * 100) # 100)%Q.

End SQL.

(** ** Query 1: daily sales *)

Record DailySales := {
  sale_date : Z;
  total_revenue : Q;
  number_of_orders : Z;
  average_order_value : Q
}.

Definition revenue (t : Transaction) : Q :=
  (inject_Z (quantity t) * price_per_item t)%Q.

Definition sale_date_of (t : Transaction) : Z :=
  SQL.cast_date (transaction_date t).

Definition daily_sales_row (g : Z * list Transaction) : DailySales :=
  {| sale_date := g.1;
     total_revenue := SQL.SUM (revenue <$> g.2);
     number_of_orders := SQL.COUNT_DISTINCT (transaction_id <$> g.2);
     average_order_value := SQL.AVG (revenue <$> g.2) |}.

Definition by_sale_date (a b : DailySales) : Prop := sale_date a ≤ sale_date b.

#[global] Instance by_sale_date_dec a b : Decision (by_sale_date a b).
Proof. unfold by_sale_date. apply _. Defined.

Definition daily_sales_query (table : list Transaction) : list DailySales :=
  merge_sort by_sale_date
    (daily_sales_row <$> map_to_list (SQL.group_by sale_date_of table)).

(** Two result rows agree when their exact columns are equal and their
    DOUBLE columns denote the same number. *)
Definition daily_sales_equiv (a b : DailySales) : Prop :=
  sale_date a = sale_date b ∧
  (total_revenue a == total_revenue b)%Q ∧
  number_of_orders a = number_of_orders b ∧
  (average_order_value a == average_order_value b)%Q.

Definition mkT (i : Z) (ts : Z) (q : Z) (p : Q) : Transaction :=
  {| transaction_id := i; product_id := 1000; customer_id := 10000;
     transaction_date := ts; quantity := q; price_per_item := p;
     store_location := "Online"; product_category := "Books" |}.

Definition fixture : list Transaction :=
  [ mkT 0 (86400000000 * 19001 + 5) 2 (1050 # 100)%Q;
    mkT 1 (86400000000 * 19000 + 7) 1 (999 # 100)%Q;
    mkT 2 (86400000000 * 19001 + 9) 3 (500 # 100)%Q ].

(** ** Query 2: category performance *)

Record CategoryPerformance := {
  cp_product_category : string;
  cp_store_location : string;
  transactions_count : Z;
  total_items_sold : Z;
  avg_item_price : Q
}.

Definition category_key (t : Transaction) : string * string :=
  (product_category t, store_location t).

Definition cp_key (o : CategoryPerformance) : string * string :=
  (cp_product_category o, cp_store_location o).

Definition category_performance_row (g : string * string * list Transaction)
    : CategoryPerformance :=
  {| cp_product_category := g.1.1;
     cp_store_location := g.1.2;
     transactions_count := SQL.COUNT g.2;
     total_items_sold := SQL.SUMZ (quantity <$> g.2);
     avg_item_price := SQL.ROUND2 (SQL.AVG (price_per_item <$> g.2)) |}.

(** No [ORDER BY]: the rows come out in the order of the hash table. *)
Definition category_performance_query (table : list Transaction)
    : list CategoryPerformance :=
  category_performance_row <$> map_to_list (SQL.group_by category_key table).

(** ** The NumPy primitives the generator calls

    Every random primitive is a function of the raw output of the
    underlying bit generator, so that the generator script is a function of
    its entropy. *)

Module NumPy.

(** [np.random.randint(low, high)]: an integer of [low, high). *)
Definition randint (low high raw : Z) : Z := low + raw `mod` (high - low).

(** [random_sample()]: 53 random bits scaled into [0, 1). *)
Definition random_sample (raw : Z) : Q :=
  (raw `mod` 9007199254740992 # 9007199254740992)%Q.

(** [np.random.uniform(low, high)] is [low + (high - low) * random_sample()],
    here in exact arithmetic. *)
Definition uniform (low high : Q) (raw : Z) : Q :=
  (low + (high - low) * random_sample raw)%Q.

(** [np.rint]: round to the nearest integer, ties to even. *)
Definition rint (x : Q) : Z :=
  let f := Qfloor x in
  match (x - inject_Z f ?= 1 # 2)%Q with
  | Lt => f
  | Gt => f + 1
  | Eq => if Z.even f then f else f + 1
  end.

(** [np.round(x, 2)]: scale by 100, [rint], scale back, here in exact
    arithmetic: NumPy rounds the product and the quotient to doubles, so at
    a draw within a rounding error of a tie it can pick the other cent. *)
Definition round2 (x : Q) : Q := (rint (x * 100) # 100)%Q.

Fixpoint cumsum_from (acc : Q) (p : list Q) : list Q :=
  match p with
  | [] => []
  | x :: p' => (acc + x)%Q :: cumsum_from (acc + x)%Q p'
  end.

Definition cumsum (p : list Q) : list Q := cumsum_from 0%Q p.

(** [cdf.searchsorted(u, side='right')] on an ascending [cdf]: the index
    of the first entry that is greater than [u]. *)
Fixpoint searchsorted_right (cdf : list Q) (u : Q) : nat :=
  match cdf with
  | [] => 0%nat
  | c :: cdf' => if Qle_bool c u then S (searchsorted_right cdf' u) else 0%nat
  end.

(** [np.random.choice(a, p=p)]: inverse-CDF sampling over the normalised
    cumulative weights, here summed in exact arithmetic: NumPy sums them in
    doubles, which can move a threshold by a rounding error. *)
Definition choice (a : list string) (p : list Q) (raw : Z) : string :=
  let cdf := cumsum p in
  let cdf := (λ c, c / List.last cdf 1)%Q <$> cdf in
  nth (searchsorted_right cdf (random_sample raw)) a "".

End NumPy.

(** ** generate_dummy_data.py *)

(** The raw random draws behind each column; [date_raw i] is the timestamp
    that [fake.date_time_this_decade()] returned for row [i]. *)
Record Entropy := {
  product_raw : Z → Z;
  customer_raw : Z → Z;
  date_raw : Z → Z;
  quantity_raw : Z → Z;
  price_raw : Z → Z;
  store_raw : Z → Z;
  category_raw : Z → Z
}.

Definition NUM_ROWS : Z := 10000000.
Definition FILENAME : string := "large_transactions.parquet".

Definition store_locations : list string :=
  ["New York"; "London"; "Online"; "Tokyo"; "Sydney"].
Definition store_weights : list Q := [0.3; 0.2; 0.3; 0.1; 0.1]%Q.

Definition product_categories : list string :=
  ["Electronics"; "Apparel"; "Groceries"; "Books"; "Home Goods"].
Definition category_weights : list Q := [0.25; 0.25; 0.2; 0.15; 0.15]%Q.

(** Row [i] of the frame built from the [data] dictionary: the [i]-th entry
    of each of its columns. *)
Definition data_row (e : Entropy) (i : Z) : Transaction :=
  {| transaction_id := i;
     product_id := NumPy.randint 1000 2000 (product_raw e i);
     customer_id := NumPy.randint 10000 20000 (customer_raw e i);
     transaction_date := date_raw e i;
     quantity := NumPy.randint 1 6 (quantity_raw e i);
     price_per_item := NumPy.round2 (NumPy.uniform 5.50 500.99 (price_raw e i));
     store_location :=
       NumPy.choice store_locations store_weights (store_raw e i);
     product_category :=
       NumPy.choice product_categories category_weights (category_raw e i) |}.

Definition data (num_rows : Z) (e : Entropy) : list Transaction :=
  data_row e <$> seqZ 0 num_rows.

(** The field constraints of the transaction schema. *)
Definition row_conforms (t : Transaction) : Prop :=
  1 ≤ quantity t < 6 ∧
  (5.50 <= price_per_item t <= 500.99)%Q ∧
  NumPy.round2 (price_per_item t) = price_per_item t ∧
  store_location t ∈ store_locations ∧
  product_category t ∈ product_categories.

Definition sample_entropy : Entropy :=
  {| product_raw := λ i, 7 * i; customer_raw := λ i, 13 * i + 1;
     date_raw := λ i, 1600000000000000 + 86400000000 * i;
     quantity_raw := λ i, i; price_raw := λ i, 1234567890123 * (i + 1);
     store_raw := λ i, 3002399751580331 * (i + 1);
     category_raw := λ i, 987654321987654 * (i + 2) |}.

(** ** Analysis tables (pandas data frames) *)

(** The column dtypes a frame can carry. *)
Inductive dtype :=
| int64 | uint64 | float64 | complex128 | timedelta64
| datetime64 | bool_ | object_ | category.

Inductive scalar :=
| SInt (z : Z)
| SFloat (q : Q)
| SBool (b : bool)
| SStr (s : string)
| STime (t : Z).

(** A column: its label, its dtype and its cells; [None] is a missing value
    (NaN, None or NaT). *)
Record Column := {
  col_name : string;
  col_dtype : dtype;
  col_values : list (option scalar)
}.

Abbreviation DataFrame := (list Column).

(** What can be listed in [select_dtypes(include=...)]. *)
Inductive dtype_spec := np_number | str_object | str_category | str_bool.

(** [np.number] is the NumPy scalar class above the integer, floating,
    complex and timedelta scalars; booleans are not below it. *)
Definition matches (s : dtype_spec) (d : dtype) : bool :=
  match s, d with
  | np_number, (int64 | uint64 | float64 | complex128 | timedelta64) => true
  | str_object, object_ => true
  | str_category, category => true
  | str_bool, bool_ => true
  | _, _ => false
  end.

Definition select_dtypes (include : list dtype_spec) (df : DataFrame)
    : DataFrame :=
  filter (λ c, existsb (λ s, matches s (col_dtype c)) include = true) df.

Definition columns (df : DataFrame) : list string := col_name <$> df.

Definition isnull (v : option scalar) : bool :=
  match v with None => true | Some _ => false end.

(** [df.isnull().sum()]: the number of missing cells of every column. *)
Definition isnull_sum (df : DataFrame) : list (string * nat) :=
  (λ c, (col_name c, length (filter (λ v, isnull v = true) (col_values c))))
    <$> df.

Definition shape (df : DataFrame) : nat * nat :=
  (match df with [] => 0%nat | c :: _ => length (col_values c) end, length df).

Definition shape_str (df : DataFrame) : string :=
  "(" +:+ pretty (shape df).1 +:+ ", " +:+ pretty (shape df).2 +:+ ")".

(** ** What the report stage writes *)

Inductive categorical_section :=
| CategoricalDescribe (described : list string)
| NoCategoricalColumns.

(** The summary text file, section by section.  The statistics printed by
    [describe] and [info] are pandas' own; the model keeps which columns
    each section covers. *)
Record Summary := {
  sum_title : string;
  sum_shape : nat * nat;
  sum_info : list (string * dtype * nat);
  sum_numerical : list string;
  sum_categorical : categorical_section
}.

Inductive artifact :=
| SummaryText (s : Summary)
| SummaryTruncated (title : string) (shape : nat * nat)
    (info : list (string * dtype * nat))
| MissingValuesBar (counts : list (string * nat))
| HistogramBoxplot (col : string)
| CountPlot (col : string) (top : nat)
| CorrelationHeatmap (cols : list string) (annot : bool) (fmt : string).

Inductive query := DailySalesQuery | CategoryPerformanceQuery.

(** The observable steps of a script run, in program order. *)
Inductive event :=
| Print (line : string)
| MakeDirs
| WriteParquet (rows : list Transaction)
| Connect
| Execute (q : query)
| Close
| Save (file : string) (a : artifact)
| Exit
| Raise (error : string).

(** The part of the file system the scripts touch: the Parquet file
    ([FILENAME], [DATA_FILE]) and the report directory ([OUTPUT_DIR]) with
    the files in it. *)
Record filesystem := {
  data_file : option (list Transaction);
  output_dir : option (gmap string artifact)
}.

Definition step (fs : filesystem) (ev : event) : filesystem :=
  match ev with
  | MakeDirs =>
      {| data_file := data_file fs;
         output_dir := Some (default ∅ (output_dir fs)) |}
  | WriteParquet rows =>
      {| data_file := Some rows; output_dir := output_dir fs |}
  | Save file a =>
      {| data_file := data_file fs;
         output_dir := Some (<[file := a]> (default ∅ (output_dir fs))) |}
  | _ => fs
  end.

Definition replay (trace : list event) (fs : filesystem) : filesystem :=
  foldl step fs trace.

Definition saved (trace : list event) : list (string * artifact) :=
  omap (λ ev, match ev with Save f a => Some (f, a) | _ => None end) trace.

Definition printed (trace : list event) : list string :=
  omap (λ ev, match ev with Print l => Some l | _ => None end) trace.

Definition executed (trace : list event) : list query :=
  omap (λ ev, match ev with Execute q => Some q | _ => None end) trace.

(** ** generate_dummy_data.py: the script *)

Definition generate_dummy_data (e : Entropy) (fs : filesystem) : list event :=
  Print "Generating a large dummy dataset..." ::
  if decide (is_Some (data_file fs)) then
    [Print ("'" +:+ FILENAME +:+ "' already exists. Skipping generation.")]
  else
    [WriteParquet (data NUM_ROWS e);
     Print ("Successfully generated '" +:+ FILENAME +:+ "' with " +:+
            pretty NUM_ROWS +:+ " rows.")].

(** ** automated_eda_duckdb.py: the report stage *)

Definition DATA_FILE : string := "large_transactions.parquet".
Definition OUTPUT_DIR : string := "eda_report_duckdb".

Definition nl : string := String (Ascii.ascii_of_nat 10) "".

Definition numerical_cols (df : DataFrame) : list string :=
  columns (select_dtypes [np_number] df).

Definition categorical_cols (df : DataFrame) : list string :=
  columns (select_dtypes [str_object; str_category; str_bool] df).

Definition categorical_cols_for_summary (df : DataFrame) : list string :=
  columns (select_dtypes [str_object; str_category] df).

Definition info (df : DataFrame) : list (string * dtype * nat) :=
  (λ c, (col_name c, col_dtype c,
         length (filter (λ v, isnull v = false) (col_values c)))) <$> df.

Definition summary (df : DataFrame) (report_title : string) : Summary :=
  {| sum_title := report_title;
     sum_shape := shape df;
     sum_info := info df;
     sum_numerical := columns (select_dtypes [np_number] df);
     sum_categorical :=
       match categorical_cols_for_summary df with
       | [] => NoCategoricalColumns
       | cols => CategoricalDescribe cols
       end |}.

Definition missing_values (df : DataFrame) : list (string * nat) :=
  filter (λ p, (0 < p.2)%nat) (isnull_sum df).

(** The summary file is opened and written section by section.  With no
    numerical column [df.describe(include=np.number)] has nothing to
    describe and raises: the file keeps what was written before (title,
    shape, info), and the exception ends the report before the
    missing-values chart and every other chart.  The categorical section is
    guarded against the same failure by its emptiness test. *)
Definition automated_exploratory_analysis
    (df : DataFrame) (report_title : string) : list event :=
  [Print (nl +:+ "--- Generating EDA Report for: " +:+ report_title +:+ " ---");
   Print (nl +:+ "1. Basic Information")]
  ++ match numerical_cols df with
     | [] =>
         [Save (report_title +:+ "_summary.txt")
               (SummaryTruncated report_title (shape df) (info df));
          Raise "ValueError: No objects to concatenate"]
     | _ :: _ =>
         [Save (report_title +:+ "_summary.txt")
               (SummaryText (summary df report_title))]
         ++ match missing_values df with
            | [] => []
            | counts => [Save (report_title +:+ "_missing_values.png")
                              (MissingValuesBar counts)]
            end
         ++ ((λ col, Save (report_title +:+ "_univariate_" +:+ col +:+ ".png")
                          (HistogramBoxplot col)) <$> numerical_cols df)
         ++ ((λ col, Save (report_title +:+ "_univariate_" +:+ col +:+ ".png")
                          (CountPlot col 20)) <$> categorical_cols df)
         ++ (if decide (1 < length (numerical_cols df))%nat then
               [Save (report_title +:+ "_correlation_matrix.png")
                     (CorrelationHeatmap (numerical_cols df) true ".2f")]
             else [])
         ++ [Print ("--- EDA Report for " +:+ report_title +:+
                    " Complete. Files saved to '" +:+ OUTPUT_DIR +:+ "'. ---")]
     end.

(** ** automated_eda_duckdb.py: the script *)

(** [fetchdf()] on the result of the daily-sales query: DATE becomes a
    datetime column, DOUBLE a float column, BIGINT an integer column. *)
Definition daily_sales_frame (rows : list DailySales) : DataFrame :=
  [ {| col_name := "sale_date"; col_dtype := datetime64;
       col_values := (λ r, Some (STime (sale_date r))) <$> rows |};
    {| col_name := "total_revenue"; col_dtype := float64;
       col_values := (λ r, Some (SFloat (total_revenue r))) <$> rows |};
    {| col_name := "number_of_orders"; col_dtype := int64;
       col_values := (λ r, Some (SInt (number_of_orders r))) <$> rows |};
    {| col_name := "average_order_value"; col_dtype := float64;
       col_values := (λ r, Some (SFloat (average_order_value r))) <$> rows |} ].

(** [fetchdf()] on the result of the category query: VARCHAR becomes an
    object column; the HUGEINT of [SUM(quantity)] is handed over as a
    float column. *)
Definition category_performance_frame (rows : list CategoryPerformance)
    : DataFrame :=
  [ {| col_name := "product_category"; col_dtype := object_;
       col_values := (λ r, Some (SStr (cp_product_category r))) <$> rows |};
    {| col_name := "store_location"; col_dtype := object_;
       col_values := (λ r, Some (SStr (cp_store_location r))) <$> rows |};
    {| col_name := "transactions_count"; col_dtype := int64;
       col_values := (λ r, Some (SInt (transactions_count r))) <$> rows |};
    {| col_name := "total_items_sold"; col_dtype := float64;
       col_values :=
         (λ r, Some (SFloat (inject_Z (total_items_sold r)))) <$> rows |};
    {| col_name := "avg_item_price"; col_dtype := float64;
       col_values := (λ r, Some (SFloat (avg_item_price r))) <$> rows |} ].

Definition fetchdf (q : query) (table : list Transaction) : DataFrame :=
  match q with
  | DailySalesQuery => daily_sales_frame (daily_sales_query table)
  | CategoryPerformanceQuery =>
      category_performance_frame (category_performance_query table)
  end.

Definition load_data_with_duckdb (q : query) (table : list Transaction)
    : list event * DataFrame :=
  let df := fetchdf q table in
  ([Print "Executing query with DuckDB...";
    Execute q;
    Print ("Data loaded successfully. Shape: " +:+ shape_str df)], df).

(** [df[name]]: the first column of that label; [None] is the KeyError of a
    frame without one. *)
Definition getitem (name : string) (df : DataFrame) : option Column :=
  head (filter (λ c, col_name c = name) df).

(** [pd.to_datetime(series)] on a datetime64 series: the series itself.
    This is the case the script reaches ([sale_date] is a DATE column of
    the query result).  What pandas does with a series of another dtype
    (scaling numbers to timestamps, parsing strings, raising TypeError on
    booleans) is outside the model: [None]. *)
Definition to_datetime (series : Column) : option Column :=
  match col_dtype series with
  | datetime64 => Some series
  | _ => None
  end.

(** [df[name] = series] for a label the frame has: the column is replaced. *)
Definition setitem (name : string) (series : Column) (df : DataFrame)
    : DataFrame :=
  (λ c, if decide (col_name c = name)
        then {| col_name := name; col_dtype := col_dtype series;
                col_values := col_values series |}
        else c) <$> df.

(** [if 'sale_date' in df.columns: df['sale_date'] = pd.to_datetime(df['sale_date'])] *)
Definition convert_sale_date (df : DataFrame) : option DataFrame :=
  if decide ("sale_date" ∈ columns df) then
    series ← getitem "sale_date" df;
    converted ← to_datetime series;
    Some (setitem "sale_date" converted df)
  else Some df.

(** The daily-sales frame as the script hands it to the report stage; the
    conversion of [sale_date] goes through on every query result. *)
Definition df_daily_sales (table : list Transaction) : DataFrame :=
  let df := (load_data_with_duckdb DailySalesQuery table).2 in
  default df (convert_sale_date df).

Definition df_category (table : list Transaction) : DataFrame :=
  (load_data_with_duckdb CategoryPerformanceQuery table).2.

(** An exception ends the run: what follows a trace that raised does not
    happen. *)
Definition raised (trace : list event) : bool :=
  match last trace with
  | Some (Raise _) => true
  | _ => false
  end.

Definition and_then (trace rest : list event) : list event :=
  if raised trace then trace else trace ++ rest.

Definition main (fs : filesystem) : list event :=
  MakeDirs ::
  match data_file fs with
  | None =>
      [Print ("Error: Data file '" +:+ DATA_FILE +:+ "' not found.");
       Print "Please run 'python generate_dummy_data.py' first.";
       Exit]
  | Some table =>
      [Connect]
      ++ (load_data_with_duckdb DailySalesQuery table).1
      ++ (if decide (is_Some (convert_sale_date
                                (load_data_with_duckdb DailySalesQuery table).2))
          then
            and_then
              (automated_exploratory_analysis (df_daily_sales table)
                 "duckdb_daily_sales")
              ((load_data_with_duckdb CategoryPerformanceQuery table).1
               ++ and_then
                    (automated_exploratory_analysis (df_category table)
                       "duckdb_category_performance")
                    [Close])
          else [Raise "pd.to_datetime"])
  end.

Definition empty_fs : filesystem := {| data_file := None; output_dir := None |}.

(** ** Vocabulary for stating the report properties *)

Definition artifacts (trace : list event) : list artifact := (saved trace).*2.

Definition is_missing_values_chart (a : artifact) : bool :=
  match a with MissingValuesBar _ => true | _ => false end.

Definition is_correlation_matrix (a : artifact) : bool :=
  match a with CorrelationHeatmap _ _ _ => true | _ => false end.

Definition is_histogram_boxplot (a : artifact) : bool :=
  match a with HistogramBoxplot _ => true | _ => false end.

Definition is_count_plot (a : artifact) : bool :=
  match a with CountPlot _ _ => true | _ => false end.

Definition is_summary (a : artifact) : bool :=
  match a with
  | SummaryText _ | SummaryTruncated _ _ _ => true
  | _ => false
  end.

Definition count_of (p : artifact → bool) (trace : list event) : nat :=
  length (filter (λ a, p a = true) (artifacts trace)).

(** The column a univariate chart (histogram+boxplot or count plot) is of. *)
Definition univariate_of (a : artifact) : option string :=
  match a with
  | HistogramBoxplot col | CountPlot col _ => Some col
  | _ => None
  end.

Definition univariate_charts (trace : list event) : list string :=
  omap univariate_of (artifacts trace).

(** The table has a missing value somewhere. *)
Definition has_null (df : DataFrame) : Prop :=
  ∃ c, c ∈ df ∧ None ∈ col_values c.

(** The columns the categorical section of a summary describes. *)
Definition described (sec : categorical_section) : list string :=
  match sec with CategoricalDescribe cols => cols | NoCategoricalColumns => [] end.

(** ** Sample tables *)

Definition df_amount_flag : DataFrame :=
  [ {| col_name := "amount"; col_dtype := float64;
       col_values := [Some (SFloat 1.5); Some (SFloat 2.5)] |};
    {| col_name := "is_online"; col_dtype := bool_;
       col_values := [Some (SBool true); Some (SBool false)] |} ].

Definition df_amount_city : DataFrame :=
  [ {| col_name := "amount"; col_dtype := float64;
       col_values := [Some (SFloat 1.5); Some (SFloat 2.5)] |};
    {| col_name := "city"; col_dtype := object_;
       col_values := [Some (SStr "Tokyo"); Some (SStr "London")] |} ].

Definition df_with_null : DataFrame :=
  [ {| col_name := "amount"; col_dtype := float64;
       col_values := [Some (SFloat 1.5); None] |};
    {| col_name := "when"; col_dtype := datetime64;
       col_values := [Some (STime 0); Some (STime 86400000000)] |} ].

Definition df_city_null : DataFrame :=
  [ {| col_name := "city"; col_dtype := object_;
       col_values := [Some (SStr "Tokyo"); None] |} ].

Definition fs_with_data : filesystem :=
  {| data_file := Some fixture; output_dir := None |}.

(** ** Vocabulary for the report directory *)

(** The directory after writing the given files, in order. *)
Definition write_all (dir : gmap string artifact)
    (files : list (string * artifact)) : gmap string artifact :=
  foldl (λ m p, <[p.1 := p.2]> m) dir files.

(** The steps that leave the Parquet file alone. *)
Definition no_parquet_write (ev : event) : Prop :=
  match ev with WriteParquet _ => False | _ => True end.

(** The files of a complete run of the report script. *)
Definition main_report_files : list string :=
  [ "duckdb_daily_sales_summary.txt";
    "duckdb_daily_sales_univariate_total_revenue.png";
    "duckdb_daily_sales_univariate_number_of_orders.png";
    "duckdb_daily_sales_univariate_average_order_value.png";
    "duckdb_daily_sales_correlation_matrix.png";
    "duckdb_category_performance_summary.txt";
    "duckdb_category_performance_univariate_transactions_count.png";
    "duckdb_category_performance_univariate_total_items_sold.png";
    "duckdb_category_performance_univariate_avg_item_price.png";
    "duckdb_category_performance_univariate_product_category.png";
    "duckdb_category_performance_univariate_store_location.png";
    "duckdb_category_performance_correlation_matrix.png" ].

(** * Verified properties *)

(** ** Facts about the SQL building blocks *)

Section group_by_facts.
Context `{Countable K} {A : Type} (key : A → K).

Lemma group_by_lookup (rows : list A) (k : K) :
  SQL.group_by key rows !! k =
    match filter (λ r, key r = k) rows with
    | [] => None
    | g => Some g
    end.
Proof.
  induction rows as [|r rows IH]; simpl; [done|].
  rewrite lookup_insert. destruct (decide (key r = k)) as [Heq|Hne].
  - subst k. rewrite filter_cons_True by done. rewrite IH.
    by destruct (filter _ rows).
  - rewrite filter_cons_False by done. apply IH.
Qed.

Lemma group_by_elem (rows : list A) (k : K) (g : list A) :
  (k, g) ∈ map_to_list (SQL.group_by key rows) ↔
  g = filter (λ r, key r = k) rows ∧ g ≠ [].
Proof.
  rewrite elem_of_map_to_list. rewrite group_by_lookup.
  destruct (filter _ rows) as [|r g'] eqn:E.
  - split; [done|]. by intros [-> ?].
  - split; [by intros [= <-]|]. by intros [-> _].
Qed.

Lemma group_by_keys (rows : list A) (k : K) :
  k ∈ (map_to_list (SQL.group_by key rows)).*1 ↔ ∃ r, r ∈ rows ∧ key r = k.
Proof.
  rewrite list_elem_of_fmap. split.
  - intros [[k' g] [Hk Hg]]. simpl in Hk. subst k'.
    apply group_by_elem in Hg as [-> Hne].
    destruct (filter _ rows) as [|r g] eqn:E; [done|].
    assert (Hr : r ∈ filter (λ r, key r = k) rows) by (rewrite E; left).
    apply list_elem_of_filter in Hr as [? ?]. eauto.
  - intros (r & Hr & <-).
    exists (key r, filter (λ r', key r' = key r) rows).
    split; [done|]. apply group_by_elem. split; [done|]. intros E.
    assert (Hin : r ∈ filter (λ r', key r' = key r) rows)
      by (by apply list_elem_of_filter).
    rewrite E in Hin. by apply not_elem_of_nil in Hin.
Qed.

Lemma group_by_dom (rows : list A) :
  dom (SQL.group_by key rows) = list_to_set (key <$> rows).
Proof.
  induction rows as [|r rows IH]; simpl.
  - apply dom_empty_L.
  - rewrite dom_insert_L. by rewrite IH.
Qed.

Lemma group_by_length (rows : list A) :
  length (map_to_list (SQL.group_by key rows)) =
  size (list_to_set (C := gset K) (key <$> rows)).
Proof. rewrite length_map_to_list, <- size_dom. by rewrite group_by_dom. Qed.
End group_by_facts.

Lemma StronglySorted_le_lt (l : list Z) :
  StronglySorted Z.le l → NoDup l → StronglySorted Z.lt l.
Proof.
  induction 1 as [|x l Hs IH Hx]; intros Hnd; [constructor|].
  apply NoDup_cons in Hnd as [Hnotin Hnd]. constructor; [by apply IH|].
  apply Forall_forall. intros y Hy.
  rewrite Forall_forall in Hx. specialize (Hx y Hy).
  assert (x ≠ y) by (intros ->; done). lia.
Qed.

#[global] Instance by_sale_date_trans : Transitive by_sale_date.
Proof. unfold by_sale_date. intros a b c ??. lia. Qed.

#[global] Instance by_sale_date_total : Total by_sale_date.
Proof. unfold by_sale_date. intros a b. lia. Qed.

Lemma daily_sales_query_perm (table : list Transaction) :
  daily_sales_query table ≡ₚ
  daily_sales_row <$> map_to_list (SQL.group_by sale_date_of table).
Proof. apply merge_sort_Permutation. Qed.

Lemma daily_sales_query_dates (table : list Transaction) :
  sale_date <$> daily_sales_query table ≡ₚ
  (map_to_list (SQL.group_by sale_date_of table)).*1.
Proof.
  rewrite daily_sales_query_perm, <- list_fmap_compose.
  by erewrite list_fmap_ext; [reflexivity|].
Qed.

Lemma daily_sales_query_elem (table : list Transaction) (o : DailySales) :
  o ∈ daily_sales_query table ↔
  ∃ rows, rows = filter (λ t, sale_date_of t = sale_date o) table ∧
          rows ≠ [] ∧ o = daily_sales_row (sale_date o, rows).
Proof.
  rewrite daily_sales_query_perm, list_elem_of_fmap. split.
  - intros [[d g] [-> Hg]]. apply group_by_elem in Hg as [-> Hne].
    simpl. eauto.
  - intros (rows & -> & Hne & Ho). eexists (_, _). split; [exact Ho|].
    by apply group_by_elem.
Qed.

(** C1: the daily-sales query returns one row per distinct calendar date of
    [transaction_date], in ascending date order; [total_revenue] is the sum
    of quantity times price over the rows of that date and
    [number_of_orders] the number of distinct transaction ids of that date.
    On a 3-row fixture spanning 2 dates it returns exactly 2 rows with
    these values. *)
Theorem daily_sales_query_correct :
  (∀ table : list Transaction,
     StronglySorted Z.lt (sale_date <$> daily_sales_query table) ∧
     (∀ d, d ∈ sale_date <$> daily_sales_query table ↔
           ∃ t, t ∈ table ∧ sale_date_of t = d) ∧
     length (daily_sales_query table) =
       size (list_to_set (C := gset Z) (sale_date_of <$> table)) ∧
     (∀ o, o ∈ daily_sales_query table →
           total_revenue o =
             SQL.SUM (revenue <$>
               filter (λ t, sale_date_of t = sale_date o) table) ∧
           number_of_orders o =
             SQL.COUNT_DISTINCT (transaction_id <$>
               filter (λ t, sale_date_of t = sale_date o) table))) ∧
  Forall2 daily_sales_equiv (daily_sales_query fixture)
    [ {| sale_date := 19000; total_revenue := 9.99;
         number_of_orders := 1; average_order_value := 9.99 |};
      {| sale_date := 19001; total_revenue := 36;
         number_of_orders := 2; average_order_value := 18 |} ].
Proof.
  split.
  - intros table. split_and!.
    + apply StronglySorted_le_lt.
      * apply (StronglySorted_fmap sale_date by_sale_date Z.le); [done|].
        apply (StronglySorted_merge_sort by_sale_date).
      * rewrite daily_sales_query_dates. apply NoDup_fst_map_to_list.
    + intros d. rewrite daily_sales_query_dates. apply group_by_keys.
    + rewrite daily_sales_query_perm, length_fmap. apply group_by_length.
    + intros o Ho. apply daily_sales_query_elem in Ho as (rows & -> & _ & Ho).
      split; by rewrite Ho at 1.
  - vm_compute. repeat constructor.
Qed.

(** [ROUND(x, 2)] is a multiple of 0.01 at distance at most 0.005 from [x]. *)
Lemma round_half_away_bounds (x : Q) :
  (x - (1 # 2) <= inject_Z (SQL.round_half_away x) <= x + (1 # 2))%Q.
Proof.
  unfold SQL.round_half_away. destruct (Qle_bool 0 x).
  - pose proof (Qfloor_le (x + (1 # 2))) as H1.
    pose proof (Qlt_floor (x + (1 # 2))) as H2.
    rewrite inject_Z_plus in H2. change (inject_Z 1) with 1%Q in H2. lra.
  - pose proof (Qle_ceiling (x - (1 # 2))) as H1.
    pose proof (Qceiling_lt (x - (1 # 2))) as H2.
    unfold Z.sub in H2. rewrite inject_Z_plus in H2.
    rewrite inject_Z_opp in H2. change (inject_Z 1) with 1%Q in H2. lra.
Qed.

Lemma ROUND2_bounds (x : Q) :
  (x - (1 # 200) <= SQL.ROUND2 x <= x + (1 # 200))%Q.
Proof.
  unfold SQL.ROUND2. pose proof (round_half_away_bounds (x * 100)) as H.
  rewrite (Qmake_Qdiv (SQL.round_half_away (x * 100)) 100).
  change (inject_Z (Z.pos 100)) with 100%Q.
  generalize dependent (inject_Z (SQL.round_half_away (x * 100))).
  intros k Hk.
  assert (E : (k / 100 == k * (1 # 100))%Q) by field.
  rewrite E. lra.
Qed.

Lemma category_performance_query_elem
    (table : list Transaction) (o : CategoryPerformance) :
  o ∈ category_performance_query table ↔
  ∃ rows, rows = filter (λ t, category_key t = cp_key o) table ∧
          rows ≠ [] ∧ o = category_performance_row (cp_key o, rows).
Proof.
  unfold category_performance_query. rewrite list_elem_of_fmap. split.
  - intros [[k g] [-> Hg]]. apply group_by_elem in Hg as [-> Hne].
    destruct k as [c l]. simpl. eauto.
  - intros (rows & -> & Hne & Ho). eexists (_, _). split; [exact Ho|].
    by apply group_by_elem.
Qed.

(** C8: the category-performance query returns one row per
    (product_category, store_location) pair present in the data;
    [transactions_count] is the number of rows of the group,
    [total_items_sold] the sum of their quantities and [avg_item_price]
    the average of their prices rounded to 2 decimals. *)
Theorem category_performance_query_correct (table : list Transaction) :
  NoDup (cp_key <$> category_performance_query table) ∧
  (∀ c l, (c, l) ∈ cp_key <$> category_performance_query table ↔
          ∃ t, t ∈ table ∧ product_category t = c ∧ store_location t = l) ∧
  (∀ o, o ∈ category_performance_query table →
        transactions_count o =
          Z.of_nat (length (filter (λ t, category_key t = cp_key o) table)) ∧
        total_items_sold o =
          SQL.SUMZ (quantity <$>
            filter (λ t, category_key t = cp_key o) table) ∧
        avg_item_price o =
          SQL.ROUND2 (SQL.AVG (price_per_item <$>
            filter (λ t, category_key t = cp_key o) table)) ∧
        (∃ cents : Z, avg_item_price o = (cents # 100)%Q) ∧
        (SQL.AVG (price_per_item <$>
            filter (λ t, category_key t = cp_key o) table) - (1 # 200)
         <= avg_item_price o
         <= SQL.AVG (price_per_item <$>
              filter (λ t, category_key t = cp_key o) table) + (1 # 200))%Q).
Proof.
  assert (Hkeys : cp_key <$> category_performance_query table =
                  (map_to_list (SQL.group_by category_key table)).*1).
  { unfold category_performance_query. rewrite <- list_fmap_compose.
    apply list_fmap_ext. by intros _ [[c l] g] _. }
  split_and!.
  - rewrite Hkeys. apply NoDup_fst_map_to_list.
  - intros c l. rewrite Hkeys, group_by_keys. unfold category_key. split.
    + intros (t & Ht & Hk). exists t. by simplify_eq.
    + intros (t & Ht & <- & <-). by exists t.
  - intros o Ho.
    apply category_performance_query_elem in Ho as (rows & -> & _ & Ho).
    assert (Havg : avg_item_price o =
              SQL.ROUND2 (SQL.AVG (price_per_item <$>
                filter (λ t, category_key t = cp_key o) table)))
      by (by rewrite Ho at 1).
    split; [by rewrite Ho at 1|]. split; [by rewrite Ho at 1|].
    split; [done|]. rewrite Havg.
    split; [by eexists|apply ROUND2_bounds].
Qed.

(** ** The generator's rows *)

Lemma randint_range (low high raw : Z) :
  low < high → low ≤ NumPy.randint low high raw < high.
Proof.
  intros Hlt. unfold NumPy.randint.
  pose proof (Z.mod_pos_bound raw (high - low)). lia.
Qed.

Lemma random_sample_range (raw : Z) :
  (0 <= NumPy.random_sample raw < 1)%Q.
Proof.
  unfold NumPy.random_sample, Qle, Qlt. simpl.
  pose proof (Z.mod_pos_bound raw 9007199254740992). lia.
Qed.

Lemma rint_lower (x : Q) (a : Z) : (inject_Z a <= x)%Q → a ≤ NumPy.rint x.
Proof.
  intros Hx. apply Qfloor_resp_le in Hx. rewrite Qfloor_Z in Hx.
  unfold NumPy.rint. destruct (_ ?= _)%Q; [destruct (Z.even _)|..]; lia.
Qed.

Lemma rint_upper (x : Q) (b : Z) : (x <= inject_Z b)%Q → NumPy.rint x ≤ b.
Proof.
  intros Hx. pose proof (Qfloor_le x) as Hf.
  assert (Hfb : Qfloor x ≤ b).
  { apply Qfloor_resp_le in Hx. by rewrite Qfloor_Z in Hx. }
  assert (Hstep : (inject_Z (Qfloor x) < x)%Q → Qfloor x + 1 ≤ b).
  { intros Hlt. assert (Hq : (inject_Z (Qfloor x) < inject_Z b)%Q) by lra.
    rewrite <- Zlt_Qlt in Hq. lia. }
  unfold NumPy.rint. destruct (_ ?= _)%Q eqn:Hc.
  - apply Qeq_alt in Hc. destruct (Z.even _); [done|]. apply Hstep. lra.
  - done.
  - apply Qgt_alt in Hc. apply Hstep. lra.
Qed.

Lemma rint_integer (x : Q) (k : Z) : (x == inject_Z k)%Q → NumPy.rint x = k.
Proof.
  intros Hx. apply Z.le_antisymm.
  - apply rint_upper. lra.
  - apply rint_lower. lra.
Qed.

Lemma round2_cents (k : Z) : NumPy.round2 (k # 100) = (k # 100)%Q.
Proof.
  unfold NumPy.round2. f_equal. apply rint_integer.
  rewrite (Qmake_Qdiv k 100). change (inject_Z (Z.pos 100)) with 100%Q.
  field.
Qed.

Lemma round2_idempotent (x : Q) :
  NumPy.round2 (NumPy.round2 x) = NumPy.round2 x.
Proof. unfold NumPy.round2 at 2 3. apply round2_cents. Qed.

Lemma round2_range (x : Q) (a b : Z) :
  (inject_Z a <= x * 100 <= inject_Z b)%Q →
  (a # 100 <= NumPy.round2 x <= b # 100)%Q.
Proof.
  intros [Ha Hb]. apply rint_lower in Ha. apply rint_upper in Hb.
  unfold NumPy.round2, Qle. simpl. lia.
Qed.

Lemma price_range (raw : Z) :
  (5.50 <= NumPy.round2 (NumPy.uniform 5.50 500.99 raw) <= 500.99)%Q.
Proof.
  pose proof (random_sample_range raw) as Hu. unfold NumPy.uniform.
  generalize dependent (NumPy.random_sample raw). intros u Hu.
  assert (H : (550 # 100 <= NumPy.round2 (5.50 + (500.99 - 5.50) * u)
               <= 50099 # 100)%Q).
  { apply round2_range. change (inject_Z 550) with 550%Q.
    change (inject_Z 50099) with 50099%Q. lra. }
  lra.
Qed.

Lemma searchsorted_right_lt (cdf : list Q) (u : Q) :
  (∃ c, c ∈ cdf ∧ (u < c)%Q) →
  (NumPy.searchsorted_right cdf u < length cdf)%nat.
Proof.
  intros (c & Hc & Hu). induction cdf as [|c' cdf IH]; simpl.
  - by apply not_elem_of_nil in Hc.
  - destruct (Qle_bool c' u) eqn:Hle; [|lia].
    apply elem_of_cons in Hc as [->|Hc].
    + apply Qle_bool_iff in Hle. lra.
    + specialize (IH Hc). lia.
Qed.

Lemma choice_elem (a : list string) (p : list Q) (raw : Z) :
  length a = length p →
  (∃ c, c ∈ (λ c, c / List.last (NumPy.cumsum p) 1)%Q <$> NumPy.cumsum p ∧
        (1 <= c)%Q) →
  NumPy.choice a p raw ∈ a.
Proof.
  intros Hlen (c & Hc & H1). unfold NumPy.choice.
  apply list_elem_of_In, nth_In.
  pose proof (random_sample_range raw) as Hu.
  generalize dependent (NumPy.random_sample raw). intros u Hu.
  eapply Nat.lt_le_trans.
  - apply searchsorted_right_lt. exists c. split; [done|lra].
  - rewrite length_fmap.
    assert (Hcs : ∀ acc, length (NumPy.cumsum_from acc p) = length p).
    { clear. induction p as [|x p IH]; intros acc; simpl; [done|].
      by rewrite IH. }
    unfold NumPy.cumsum. rewrite Hcs. lia.
Qed.

Lemma choice_store (raw : Z) :
  NumPy.choice store_locations store_weights raw ∈ store_locations.
Proof.
  apply choice_elem; [done|]. eexists. split.
  - do 4 right. left.
  - by vm_compute.
Qed.

Lemma choice_category (raw : Z) :
  NumPy.choice product_categories category_weights raw ∈ product_categories.
Proof.
  apply choice_elem; [done|]. eexists. split.
  - do 4 right. left.
  - by vm_compute.
Qed.

(** C2: every generated row satisfies the field constraints of the schema:
    the transaction ids are the sequential integers 0, 1, 2, ... (hence
    unique), the quantity is in [1,6), the price is in [5.50,500.99] and is
    its own rounding to 2 decimals, store and category are in their
    vocabularies.  The rows the script writes are [data NUM_ROWS e]. *)
Theorem generated_rows_conform (num_rows : Z) (e : Entropy) :
  transaction_id <$> data num_rows e = seqZ 0 num_rows ∧
  NoDup (transaction_id <$> data num_rows e) ∧
  Forall row_conforms (data num_rows e) ∧
  ∀ dir, generate_dummy_data e {| data_file := None; output_dir := dir |} =
    [Print "Generating a large dummy dataset...";
     WriteParquet (data NUM_ROWS e);
     Print "Successfully generated 'large_transactions.parquet' with 10000000 rows."].
Proof.
  assert (Hids : transaction_id <$> data num_rows e = seqZ 0 num_rows).
  { unfold data. rewrite <- list_fmap_compose.
    rewrite <- (list_fmap_id (seqZ 0 num_rows)) at 2.
    by apply list_fmap_ext. }
  split; [done|]. split; [rewrite Hids; apply NoDup_seqZ|]. split.
  - unfold data. apply Forall_fmap, Forall_forall. intros i _.
    unfold row_conforms. cbn [data_row quantity price_per_item store_location
      product_category]. split_and!.
    + apply randint_range. lia.
    + apply randint_range. lia.
    + apply price_range.
    + apply price_range.
    + apply round2_idempotent.
    + apply choice_store.
    + apply choice_category.
  - intros dir. unfold generate_dummy_data.
    rewrite decide_False by (by intros [? ?]). repeat f_equal.
Qed.

(** ** The generator script *)

(** Both scripts address the same Parquet file. *)
Lemma data_file_path : DATA_FILE = FILENAME.
Proof. reflexivity. Qed.

Lemma generate_existing (e : Entropy) (fs : filesystem) :
  is_Some (data_file fs) →
  generate_dummy_data e fs =
    [Print "Generating a large dummy dataset...";
     Print ("'" +:+ FILENAME +:+ "' already exists. Skipping generation.")].
Proof. intros Hex. unfold generate_dummy_data. by rewrite decide_True. Qed.

Lemma generate_leaves_file (e : Entropy) (fs : filesystem) :
  is_Some (data_file (replay (generate_dummy_data e fs) fs)).
Proof.
  unfold generate_dummy_data. destruct (decide (is_Some (data_file fs))).
  - done.
  - by eexists.
Qed.

(** C3: the generator is idempotent on an existing output.  When the target
    file exists, a run writes nothing and leaves the file system as it was;
    therefore running the generator twice leaves the same file as running
    it once. *)
Theorem generate_dummy_data_idempotent :
  (∀ e fs, is_Some (data_file fs) →
     (∀ rows, WriteParquet rows ∉ generate_dummy_data e fs) ∧
     replay (generate_dummy_data e fs) fs = fs) ∧
  (∀ e1 e2 fs,
     replay (generate_dummy_data e2 (replay (generate_dummy_data e1 fs) fs))
            (replay (generate_dummy_data e1 fs) fs)
     = replay (generate_dummy_data e1 fs) fs).
Proof.
  assert (Hskip : ∀ e fs, is_Some (data_file fs) →
            (∀ rows, WriteParquet rows ∉ generate_dummy_data e fs) ∧
            replay (generate_dummy_data e fs) fs = fs).
  { intros e fs Hex. rewrite generate_existing by done. split; [|done].
    intros rows Hin. repeat (apply elem_of_cons in Hin as [Hin|Hin]; [done|]).
    by apply not_elem_of_nil in Hin. }
  split; [done|]. intros e1 e2 fs. apply Hskip, generate_leaves_file.
Qed.

Lemma generate_dummy_data_idempotent_witness :
  is_Some (data_file fs_with_data) ∧
  replay (generate_dummy_data sample_entropy fs_with_data) fs_with_data
  = fs_with_data.
Proof.
  assert (Hex : is_Some (data_file fs_with_data)) by (by eexists).
  split; [exact Hex|].
  exact (proj2 (proj1 generate_dummy_data_idempotent sample_entropy
                  fs_with_data Hex)).
Defined.

(** ** The report stage *)

Lemma saved_app (t1 t2 : list event) : saved (t1 ++ t2) = saved t1 ++ saved t2.
Proof. apply omap_app. Qed.

Lemma saved_Save_fmap {A} (file : A → string) (a : A → artifact) (l : list A) :
  saved ((λ x, Save (file x) (a x)) <$> l) = (λ x, (file x, a x)) <$> l.
Proof. induction l as [|x l IH]; simpl; [done|]. by f_equal. Qed.

Lemma report_aborts (df : DataFrame) (report_title : string) :
  numerical_cols df = [] →
  automated_exploratory_analysis df report_title =
    [Print (nl +:+ "--- Generating EDA Report for: " +:+ report_title +:+ " ---");
     Print (nl +:+ "1. Basic Information");
     Save (report_title +:+ "_summary.txt")
          (SummaryTruncated report_title (shape df) (info df));
     Raise "ValueError: No objects to concatenate"].
Proof. intros Hnum. unfold automated_exploratory_analysis. by rewrite Hnum. Qed.

Lemma saved_report_abort (df : DataFrame) (report_title : string) :
  numerical_cols df = [] →
  saved (automated_exploratory_analysis df report_title) =
    [(report_title +:+ "_summary.txt",
      SummaryTruncated report_title (shape df) (info df))].
Proof. intros Hnum. by rewrite report_aborts. Qed.

Lemma saved_report (df : DataFrame) (report_title : string) :
  numerical_cols df ≠ [] →
  saved (automated_exploratory_analysis df report_title) =
    [(report_title +:+ "_summary.txt", SummaryText (summary df report_title))]
    ++ match missing_values df with
       | [] => []
       | counts => [(report_title +:+ "_missing_values.png",
                     MissingValuesBar counts)]
       end
    ++ ((λ col, (report_title +:+ "_univariate_" +:+ col +:+ ".png",
                 HistogramBoxplot col)) <$> numerical_cols df)
    ++ ((λ col, (report_title +:+ "_univariate_" +:+ col +:+ ".png",
                 CountPlot col 20)) <$> categorical_cols df)
    ++ (if decide (1 < length (numerical_cols df))%nat then
          [(report_title +:+ "_correlation_matrix.png",
            CorrelationHeatmap (numerical_cols df) true ".2f")]
        else []).
Proof.
  intros Hnum. unfold automated_exploratory_analysis.
  destruct (numerical_cols df) as [|num nums] eqn:E; [done|].
  rewrite !saved_app, !saved_Save_fmap.
  change (saved [Print _; Print _]) with (@nil (string * artifact)).
  rewrite app_nil_l.
  f_equal. f_equal; [by destruct (missing_values df)|].
  f_equal. f_equal. rewrite app_nil_r. by case_decide.
Qed.

Lemma artifacts_report (df : DataFrame) (report_title : string) :
  numerical_cols df ≠ [] →
  artifacts (automated_exploratory_analysis df report_title) =
    [SummaryText (summary df report_title)]
    ++ match missing_values df with
       | [] => []
       | counts => [MissingValuesBar counts]
       end
    ++ (HistogramBoxplot <$> numerical_cols df)
    ++ ((λ col, CountPlot col 20) <$> categorical_cols df)
    ++ (if decide (1 < length (numerical_cols df))%nat then
          [CorrelationHeatmap (numerical_cols df) true ".2f"]
        else []).
Proof.
  intros Hnum. unfold artifacts.
  rewrite saved_report by done. rewrite !fmap_app, <- !list_fmap_compose.
  f_equal. f_equal; [by destruct (missing_values df)|].
  f_equal. f_equal. by case_decide.
Qed.

Lemma artifacts_report_abort (df : DataFrame) (report_title : string) :
  numerical_cols df = [] →
  artifacts (automated_exploratory_analysis df report_title) =
    [SummaryTruncated report_title (shape df) (info df)].
Proof. intros Hnum. unfold artifacts. by rewrite saved_report_abort. Qed.

Lemma filter_fmap_all {A B} (P : B → Prop) `{∀ x, Decision (P x)}
    (f : A → B) (l : list A) :
  (∀ x, P (f x)) → filter P (f <$> l) = f <$> l.
Proof.
  intros HP. induction l as [|x l IH]; simpl; [done|].
  rewrite filter_cons_True by done. by f_equal.
Qed.

Lemma filter_fmap_none {A B} (P : B → Prop) `{∀ x, Decision (P x)}
    (f : A → B) (l : list A) :
  (∀ x, ¬ P (f x)) → filter P (f <$> l) = [].
Proof.
  intros HP. induction l as [|x l IH]; simpl; [done|].
  by rewrite filter_cons_False.
Qed.

(** A column has a missing cell exactly when its null count is positive. *)
Lemma null_count_pos (vs : list (option scalar)) :
  (0 < length (filter (λ v, isnull v = true) vs))%nat ↔ None ∈ vs.
Proof.
  induction vs as [|v vs IH]; simpl.
  - split; [simpl; lia|]. by intros ?%not_elem_of_nil.
  - destruct v as [x|].
    + rewrite filter_cons_False by done. rewrite IH, elem_of_cons.
      split; [auto|]. by intros [?|?].
    + rewrite filter_cons_True by done. split; [left|simpl; lia].
Qed.

Lemma missing_values_has_null (df : DataFrame) :
  missing_values df ≠ [] ↔ has_null df.
Proof.
  unfold missing_values, isnull_sum, has_null.
  induction df as [|c df IH]; simpl.
  - split; [done|].
    by intros (c & ?%not_elem_of_nil & _).
  - rewrite filter_cons. simpl. case_decide as Hpos.
    + split; [|done]. intros _. exists c. split; [left|].
      by apply null_count_pos.
    + rewrite IH. split.
      * intros (c' & Hc' & Hn). exists c'. split; [by right|done].
      * intros (c' & Hc' & Hn). apply elem_of_cons in Hc' as [->|Hc'].
        -- by apply null_count_pos in Hn.
        -- eauto.
Qed.

Section report_counts.
Context (df : DataFrame) (report_title : string).
Hypothesis Hnum : numerical_cols df ≠ [].

Local Ltac count_report :=
  unfold count_of; rewrite artifacts_report by done;
  rewrite !filter_app, !length_app;
  rewrite ?(filter_fmap_none _ HistogramBoxplot) by (by intros ?);
  rewrite ?(filter_fmap_all _ HistogramBoxplot) by (by intros ?);
  rewrite ?(filter_fmap_none _ (λ col, CountPlot col 20)) by (by intros ?);
  rewrite ?(filter_fmap_all _ (λ col, CountPlot col 20)) by (by intros ?);
  rewrite ?length_fmap;
  destruct (missing_values df); case_decide; simpl; lia.

Lemma count_summary :
  count_of is_summary (automated_exploratory_analysis df report_title) = 1%nat.
Proof. count_report. Qed.

Lemma count_missing_values_chart :
  count_of is_missing_values_chart
    (automated_exploratory_analysis df report_title) =
  match missing_values df with [] => 0%nat | _ => 1%nat end.
Proof. count_report. Qed.

Lemma count_histogram_boxplot :
  count_of is_histogram_boxplot
    (automated_exploratory_analysis df report_title) =
  length (numerical_cols df).
Proof. count_report. Qed.

Lemma count_count_plot :
  count_of is_count_plot (automated_exploratory_analysis df report_title) =
  length (categorical_cols df).
Proof. count_report. Qed.

Lemma count_correlation_matrix :
  count_of is_correlation_matrix
    (automated_exploratory_analysis df report_title) =
  if decide (1 < length (numerical_cols df))%nat then 1%nat else 0%nat.
Proof. count_report. Qed.
End report_counts.

(** C5: for a table with exactly one numerical column, exactly one
    categorical column and no missing value, the report stage writes the
    summary text, one histogram+boxplot image for the numerical column and
    one count-plot image for the categorical column, and neither a
    correlation matrix nor a missing-values chart. *)
Theorem report_completeness (df : DataFrame) (report_title : string) :
  length (numerical_cols df) = 1%nat →
  length (categorical_cols df) = 1%nat →
  ¬ has_null df →
  ∃ num cat,
    numerical_cols df = [num] ∧ categorical_cols df = [cat] ∧
    saved (automated_exploratory_analysis df report_title) =
      [ (report_title +:+ "_summary.txt",
         SummaryText (summary df report_title));
        (report_title +:+ "_univariate_" +:+ num +:+ ".png",
         HistogramBoxplot num);
        (report_title +:+ "_univariate_" +:+ cat +:+ ".png",
         CountPlot cat 20) ] ∧
    count_of is_summary
      (automated_exploratory_analysis df report_title) = 1%nat ∧
    count_of is_histogram_boxplot
      (automated_exploratory_analysis df report_title) = 1%nat ∧
    count_of is_count_plot
      (automated_exploratory_analysis df report_title) = 1%nat ∧
    count_of is_correlation_matrix
      (automated_exploratory_analysis df report_title) = 0%nat ∧
    count_of is_missing_values_chart
      (automated_exploratory_analysis df report_title) = 0%nat.
Proof.
  intros Hnum Hcat Hnull.
  assert (Hmiss : missing_values df = []).
  { destruct (missing_values df) eqn:E; [done|]. exfalso. apply Hnull.
    apply missing_values_has_null. by rewrite E. }
  assert (Hruns : numerical_cols df ≠ []) by (by destruct (numerical_cols df)).
  destruct (numerical_cols df) as [|num [|??]] eqn:En; try done.
  destruct (categorical_cols df) as [|cat [|??]] eqn:Ec; try done.
  exists num, cat. split; [done|]. split; [done|]. split.
  { rewrite saved_report by (by rewrite En). rewrite Hmiss, En, Ec.
    by rewrite decide_False by (simpl; lia). }
  rewrite count_summary, count_histogram_boxplot, count_count_plot,
    count_correlation_matrix, count_missing_values_chart
    by (by rewrite En).
  rewrite Hmiss, En, Ec. by rewrite decide_False by (simpl; lia).
Qed.

Lemma report_completeness_witness :
  ∃ num cat,
    numerical_cols df_amount_city = [num] ∧
    categorical_cols df_amount_city = [cat] ∧
    saved (automated_exploratory_analysis df_amount_city "sales") =
      [ ("sales" +:+ "_summary.txt",
         SummaryText (summary df_amount_city "sales"));
        ("sales" +:+ "_univariate_" +:+ num +:+ ".png", HistogramBoxplot num);
        ("sales" +:+ "_univariate_" +:+ cat +:+ ".png", CountPlot cat 20) ] ∧
    count_of is_summary
      (automated_exploratory_analysis df_amount_city "sales") = 1%nat ∧
    count_of is_histogram_boxplot
      (automated_exploratory_analysis df_amount_city "sales") = 1%nat ∧
    count_of is_count_plot
      (automated_exploratory_analysis df_amount_city "sales") = 1%nat ∧
    count_of is_correlation_matrix
      (automated_exploratory_analysis df_amount_city "sales") = 0%nat ∧
    count_of is_missing_values_chart
      (automated_exploratory_analysis df_amount_city "sales") = 0%nat.
Proof.
  apply (report_completeness df_amount_city "sales").
  - reflexivity.
  - reflexivity.
  - intros H%missing_values_has_null. by apply H.
Defined.

(** C6: the missing-values chart is lost on a table without numerical
    column.  The table below has a missing value, but the numerical section
    of the summary raises before the chart is reached: the run ends with
    the truncated summary file and no chart. *)
Theorem missing_values_chart_lost :
  has_null df_city_null ∧
  automated_exploratory_analysis df_city_null "cities" =
    [Print (nl +:+ "--- Generating EDA Report for: cities ---");
     Print (nl +:+ "1. Basic Information");
     Save "cities_summary.txt"
          (SummaryTruncated "cities" (2%nat, 1%nat)
             [("city", object_, 1%nat)]);
     Raise "ValueError: No objects to concatenate"] ∧
  count_of is_missing_values_chart
    (automated_exploratory_analysis df_city_null "cities") = 0%nat.
Proof.
  split; [|done]. eexists. split; [left|]. simpl. right. left.
Qed.

(** X24: on a table with at least one numerical column the missing-values
    bar chart is written exactly when some column of the table has a
    missing value: one chart for a table with a null, none for a table
    without. *)
Theorem missing_values_chart_gating (df : DataFrame) (report_title : string) :
  numerical_cols df ≠ [] →
  (has_null df →
     count_of is_missing_values_chart
       (automated_exploratory_analysis df report_title) = 1%nat ∧
     (report_title +:+ "_missing_values.png",
      MissingValuesBar (missing_values df))
       ∈ saved (automated_exploratory_analysis df report_title)) ∧
  (¬ has_null df →
     count_of is_missing_values_chart
       (automated_exploratory_analysis df report_title) = 0%nat) ∧
  ((∃ file counts, (file, MissingValuesBar counts)
       ∈ saved (automated_exploratory_analysis df report_title))
   ↔ has_null df).
Proof.
  intros Hnum.
  rewrite count_missing_values_chart, saved_report by done.
  rewrite <- missing_values_has_null.
  destruct (missing_values df) as [|p counts] eqn:E.
  - split; [done|]. split; [done|]. split; [|done].
    intros (file & cs & Hin). exfalso.
    rewrite !elem_of_app in Hin.
    destruct Hin as [Hin|[Hin|[Hin|[Hin|Hin]]]].
    + apply list_elem_of_singleton in Hin. discriminate.
    + by apply not_elem_of_nil in Hin.
    + apply list_elem_of_fmap in Hin as (? & ? & _). discriminate.
    + apply list_elem_of_fmap in Hin as (? & ? & _). discriminate.
    + case_decide; [apply list_elem_of_singleton in Hin; discriminate|].
      by apply not_elem_of_nil in Hin.
  - split.
    { intros _. split; [done|]. rewrite !elem_of_app. right. left.
      by apply list_elem_of_singleton. }
    split; [by intros []|]. split; [done|]. intros _.
    eexists _, _. rewrite !elem_of_app. right. left.
    by apply list_elem_of_singleton.
Qed.

Lemma missing_values_chart_gating_witness :
  numerical_cols df_with_null ≠ [] ∧
  has_null df_with_null ∧
  count_of is_missing_values_chart
    (automated_exploratory_analysis df_with_null "sales") = 1%nat ∧
  ¬ has_null df_amount_city ∧
  count_of is_missing_values_chart
    (automated_exploratory_analysis df_amount_city "sales") = 0%nat.
Proof.
  assert (Hn1 : numerical_cols df_with_null ≠ []) by done.
  assert (Hn2 : numerical_cols df_amount_city ≠ []) by done.
  assert (H1 : has_null df_with_null).
  { eexists. split; [left|]. simpl. right. left. }
  assert (H2 : ¬ has_null df_amount_city).
  { intros H%missing_values_has_null. by apply H. }
  split; [exact Hn1|]. split; [exact H1|]. split.
  - exact (proj1 (proj1 (missing_values_chart_gating df_with_null "sales" Hn1)
                    H1)).
  - split; [exact H2|].
    exact (proj1 (proj2
             (missing_values_chart_gating df_amount_city "sales" Hn2)) H2).
Defined.

(** C7: the correlation-matrix heatmap is written exactly when the table has
    more than one numerical column; it then covers all numerical columns
    and is annotated with two decimals. *)
Theorem correlation_matrix_gating (df : DataFrame) (report_title : string) :
  filter (λ a, is_correlation_matrix a = true)
    (artifacts (automated_exploratory_analysis df report_title)) =
  (if decide (1 < length (numerical_cols df))%nat
   then [CorrelationHeatmap (numerical_cols df) true ".2f"]
   else []) ∧
  ((report_title +:+ "_correlation_matrix.png",
    CorrelationHeatmap (numerical_cols df) true ".2f")
     ∈ saved (automated_exploratory_analysis df report_title)
   ↔ (1 < length (numerical_cols df))%nat).
Proof.
  destruct (decide (numerical_cols df = [])) as [Habort|Hnum].
  { rewrite artifacts_report_abort, saved_report_abort by done.
    rewrite Habort. split; [done|]. split; [|simpl; lia].
    intros Hin%list_elem_of_singleton. discriminate. }
  split.
  - rewrite artifacts_report by done. rewrite !filter_app.
    rewrite (filter_fmap_none _ HistogramBoxplot) by (by intros ?).
    rewrite (filter_fmap_none _ (λ col, CountPlot col 20)) by (by intros ?).
    destruct (missing_values df); by case_decide.
  - rewrite saved_report by done. rewrite !elem_of_app. split.
    + intros [Hin|[Hin|[Hin|[Hin|Hin]]]].
      * apply list_elem_of_singleton in Hin. discriminate.
      * destruct (missing_values df).
        -- by apply not_elem_of_nil in Hin.
        -- apply list_elem_of_singleton in Hin. discriminate.
      * apply list_elem_of_fmap in Hin as (? & ? & _). discriminate.
      * apply list_elem_of_fmap in Hin as (? & ? & _). discriminate.
      * case_decide; [done|]. by apply not_elem_of_nil in Hin.
    + intros Hlt. do 4 right. rewrite decide_True by done.
      by apply list_elem_of_singleton.
Qed.

(** ** Column classification *)

Lemma NoDup_fmap_eq {A B} (f : A → B) (l : list A) (x y : A) :
  NoDup (f <$> l) → x ∈ l → y ∈ l → f x = f y → x = y.
Proof.
  induction l as [|z l IH]; simpl; intros Hnd Hx Hy Hf.
  - by apply not_elem_of_nil in Hx.
  - apply NoDup_cons in Hnd as [Hz Hnd].
    apply elem_of_cons in Hx as [->|Hx]; apply elem_of_cons in Hy as [->|Hy].
    + done.
    + exfalso. apply Hz. rewrite Hf. by apply list_elem_of_fmap_2.
    + exfalso. apply Hz. rewrite <- Hf. by apply list_elem_of_fmap_2.
    + by apply IH.
Qed.

Lemma elem_of_select_columns (include : list dtype_spec) (df : DataFrame)
    (name : string) :
  name ∈ columns (select_dtypes include df) ↔
  ∃ c, c ∈ df ∧ col_name c = name ∧
       existsb (λ s, matches s (col_dtype c)) include = true.
Proof.
  unfold columns, select_dtypes. rewrite list_elem_of_fmap. split.
  - intros (c & -> & Hc). apply list_elem_of_filter in Hc as [? ?]. eauto.
  - intros (c & Hc & <- & Hm). exists c. split; [done|].
    by apply list_elem_of_filter.
Qed.

Lemma NoDup_select_columns (include : list dtype_spec) (df : DataFrame) :
  NoDup (columns df) → NoDup (columns (select_dtypes include df)).
Proof.
  intros Hnd. eapply sublist_NoDup; [exact Hnd|].
  unfold columns, select_dtypes. apply fmap_sublist, sublist_filter.
Qed.

Lemma univariate_charts_abort (df : DataFrame) (report_title : string) :
  numerical_cols df = [] →
  univariate_charts (automated_exploratory_analysis df report_title) = [].
Proof.
  intros Hnum. unfold univariate_charts. by rewrite artifacts_report_abort.
Qed.

Lemma univariate_charts_report (df : DataFrame) (report_title : string) :
  numerical_cols df ≠ [] →
  univariate_charts (automated_exploratory_analysis df report_title) =
  numerical_cols df ++ categorical_cols df.
Proof.
  intros Hnum. unfold univariate_charts.
  rewrite artifacts_report by done. rewrite !omap_app.
  assert (H1 : ∀ l : list string, omap univariate_of (HistogramBoxplot <$> l) = l).
  { induction l as [|x l IH]; simpl; [done|]. by f_equal. }
  assert (H2 : ∀ l : list string,
            omap univariate_of ((λ col, CountPlot col 20) <$> l) = l).
  { induction l as [|x l IH]; simpl; [done|]. by f_equal. }
  rewrite H1, H2. destruct (missing_values df); case_decide; simpl;
    by rewrite app_nil_r.
Qed.

Lemma described_summary (df : DataFrame) (report_title : string) :
  described (sum_categorical (summary df report_title)) =
  categorical_cols_for_summary df.
Proof. simpl. by destruct (categorical_cols_for_summary df). Qed.

Lemma univariate_charts_elem (df : DataFrame) (report_title name : string) :
  name ∈ univariate_charts (automated_exploratory_analysis df report_title) →
  name ∈ numerical_cols df ++ categorical_cols df.
Proof.
  destruct (decide (numerical_cols df = [])) as [Habort|Hnum].
  - rewrite univariate_charts_abort by done. by intros ?%not_elem_of_nil.
  - by rewrite univariate_charts_report.
Qed.

Lemma convert_sale_date_daily (rows : list DailySales) :
  convert_sale_date (daily_sales_frame rows) = Some (daily_sales_frame rows).
Proof.
  unfold convert_sale_date. rewrite decide_True by (simpl; left).
  unfold getitem, daily_sales_frame. rewrite filter_cons_True by done.
  simpl. unfold setitem. simpl. by repeat case_decide.
Qed.

Lemma df_daily_sales_eq (table : list Transaction) :
  df_daily_sales table = daily_sales_frame (daily_sales_query table).
Proof.
  unfold df_daily_sales, load_data_with_duckdb, fetchdf. cbn [snd].
  by rewrite convert_sale_date_daily.
Qed.

Lemma daily_sales_frame_cols (rows : list DailySales) :
  columns (daily_sales_frame rows) =
    ["sale_date"; "total_revenue"; "number_of_orders"; "average_order_value"] ∧
  numerical_cols (daily_sales_frame rows) =
    ["total_revenue"; "number_of_orders"; "average_order_value"] ∧
  categorical_cols (daily_sales_frame rows) = [].
Proof. done. Qed.

(** C10: the numerical and the categorical classification of the report
    stage are disjoint, so every column gets at most one univariate chart;
    a column that is neither (a datetime column such as [sale_date] of the
    daily-sales frame) gets no univariate chart and is in neither block of
    descriptive statistics.  Charts and statistics refer to a column by its
    label, so the label-level statements are for tables with distinct
    column labels. *)
Theorem classification_disjoint (df : DataFrame) (report_title : string) :
  (∀ c, ¬ (c ∈ select_dtypes [np_number] df ∧
           c ∈ select_dtypes [str_object; str_category; str_bool] df)) ∧
  (∀ table,
     "sale_date" ∈ columns (df_daily_sales table) ∧
     ("sale_date" ∉
        univariate_charts
          (automated_exploratory_analysis (df_daily_sales table)
             "duckdb_daily_sales")) ∧
     ("sale_date" ∉
        sum_numerical (summary (df_daily_sales table) "duckdb_daily_sales")) ∧
     sum_categorical (summary (df_daily_sales table) "duckdb_daily_sales") =
       NoCategoricalColumns) ∧
  (NoDup (columns df) →
   (∀ name, ¬ (name ∈ numerical_cols df ∧ name ∈ categorical_cols df)) ∧
   NoDup (univariate_charts (automated_exploratory_analysis df report_title)) ∧
   (∀ c, c ∈ df → col_dtype c = datetime64 →
         (col_name c ∉
            univariate_charts (automated_exploratory_analysis df report_title)) ∧
         (col_name c ∉ sum_numerical (summary df report_title)) ∧
         (col_name c ∉ described (sum_categorical (summary df report_title))))).
Proof.
  assert (Hcol : ∀ c, ¬ (c ∈ select_dtypes [np_number] df ∧
            c ∈ select_dtypes [str_object; str_category; str_bool] df)).
  { intros c [[H1 _]%list_elem_of_filter [H2 _]%list_elem_of_filter].
    destruct (col_dtype c); simpl in *; discriminate. }
  split; [done|]. split.
  { intros table. rewrite df_daily_sales_eq.
    rewrite univariate_charts_report by done.
    unfold summary, categorical_cols_for_summary. simpl sum_numerical.
    simpl sum_categorical. fold (numerical_cols
      (daily_sales_frame (daily_sales_query table))).
    destruct (daily_sales_frame_cols (daily_sales_query table))
      as (-> & -> & ->).
    split; [left|]. split; [|split; [|done]]; intros H;
      repeat (apply elem_of_cons in H as [H|H]; [discriminate|]);
      by apply not_elem_of_nil in H. }
  intros Hnd.
  assert (Hname : ∀ name,
            ¬ (name ∈ numerical_cols df ∧ name ∈ categorical_cols df)).
  { intros name [(c1 & Hc1 & Hn1 & Hm1)%elem_of_select_columns
                 (c2 & Hc2 & Hn2 & Hm2)%elem_of_select_columns].
    assert (c1 = c2) by (by apply (NoDup_fmap_eq col_name df); try congruence).
    subst c2. destruct (col_dtype c1); simpl in *; discriminate. }
  split; [done|]. split.
  { destruct (decide (numerical_cols df = [])) as [Habort|Hnum].
    { rewrite univariate_charts_abort by done. apply NoDup_nil_2. }
    rewrite univariate_charts_report by done. apply NoDup_app. split_and!.
    - by apply NoDup_select_columns.
    - intros name H1 H2. by apply (Hname name).
    - by apply NoDup_select_columns. }
  intros c Hc Hdt.
  assert (Hsel : ∀ include,
            (∀ s, s ∈ include → matches s datetime64 = false) →
            col_name c ∉ columns (select_dtypes include df)).
  { intros include Hinc (c' & Hc' & Hn & Hm)%elem_of_select_columns.
    assert (c' = c) by (by apply (NoDup_fmap_eq col_name df)).
    subst c'. rewrite Hdt in Hm.
    apply existsb_exists in Hm as (s0 & Hs0 & Hm).
    apply list_elem_of_In in Hs0. rewrite Hinc in Hm; done. }
  rewrite described_summary. split_and!.
  - intros H%univariate_charts_elem. revert H. rewrite elem_of_app.
    intros [H|H]; revert H; apply Hsel; by intros [].
  - apply Hsel. by intros [].
  - apply Hsel. by intros [].
Qed.

Lemma classification_disjoint_witness :
  NoDup (columns df_with_null) ∧
  NoDup (univariate_charts (automated_exploratory_analysis df_with_null "sales")) ∧
  ("when" ∉ univariate_charts (automated_exploratory_analysis df_with_null "sales")).
Proof.
  assert (Hnd : NoDup (columns df_with_null)).
  { by apply (bool_decide_unpack _). }
  pose proof (proj2 (proj2 (classification_disjoint df_with_null "sales")) Hnd)
    as (_ & Hcharts & Hdt).
  split; [exact Hnd|]. split; [exact Hcharts|].
  refine (proj1 (Hdt {| col_name := "when"; col_dtype := datetime64;
                        col_values := [Some (STime 0);
                                       Some (STime 86400000000)] |} _ _)).
  - right. left.
  - reflexivity.
Defined.

(** The two selections of the report stage differ on bool columns: the one
    for the charts takes them, the one for the summary does not. *)
Lemma bool_column_selection (df : DataFrame) (c : Column) :
  c ∈ df → col_dtype c = bool_ →
  c ∈ select_dtypes [str_object; str_category; str_bool] df ∧
  c ∉ select_dtypes [str_object; str_category] df.
Proof.
  intros Hc Hb. unfold select_dtypes. rewrite !list_elem_of_filter, Hb.
  split; [done|]. by intros [? _].
Qed.

(** C4: bool columns are categorical for the charts but are left out of the
    categorical section of the summary.  On a table whose only
    non-numerical column is a bool column, the count plot of that column is
    written while the summary carries the "no categorical columns" notice
    instead of the statistics of that column. *)
Theorem bool_column_chart_but_no_summary :
  categorical_cols df_amount_flag = ["is_online"] ∧
  categorical_cols_for_summary df_amount_flag = [] ∧
  saved (automated_exploratory_analysis df_amount_flag "flags") =
    [ ("flags_summary.txt",
       SummaryText
         {| sum_title := "flags";
            sum_shape := (2%nat, 2%nat);
            sum_info := [("amount", float64, 2%nat); ("is_online", bool_, 2%nat)];
            sum_numerical := ["amount"];
            sum_categorical := NoCategoricalColumns |});
      ("flags_univariate_amount.png", HistogramBoxplot "amount");
      ("flags_univariate_is_online.png", CountPlot "is_online" 20) ].
Proof. by vm_compute. Qed.

(** ** The report script *)

(** C9: when the data file is absent, the script prints the error and the
    hint to run the generator first and exits; no query is executed and no
    report file is written. *)
Theorem main_missing_data_file (fs : filesystem) :
  data_file fs = None →
  main fs =
    [MakeDirs;
     Print "Error: Data file 'large_transactions.parquet' not found.";
     Print "Please run 'python generate_dummy_data.py' first.";
     Exit] ∧
  printed (main fs) =
    ["Error: Data file 'large_transactions.parquet' not found.";
     "Please run 'python generate_dummy_data.py' first."] ∧
  executed (main fs) = [] ∧
  saved (main fs) = [] ∧
  replay (main fs) fs =
    {| data_file := None; output_dir := Some (default ∅ (output_dir fs)) |}.
Proof.
  intros Hnone. unfold main. rewrite Hnone. split; [done|]. split; [done|].
  split; [done|]. split; [done|]. unfold replay. simpl. by rewrite Hnone.
Qed.

Lemma main_missing_data_file_witness :
  data_file empty_fs = None ∧
  printed (main empty_fs) =
    ["Error: Data file 'large_transactions.parquet' not found.";
     "Please run 'python generate_dummy_data.py' first."] ∧
  executed (main empty_fs) = [] ∧
  saved (main empty_fs) = [].
Proof.
  assert (Hnone : data_file empty_fs = None) by reflexivity.
  pose proof (main_missing_data_file empty_fs Hnone)
    as (_ & Hp & Hq & Hs & _).
  split; [exact Hnone|]. split; [exact Hp|]. by split.
Defined.

Lemma daily_sales_query_correct_witness :
  ∃ o, o ∈ daily_sales_query fixture ∧
       total_revenue o =
         SQL.SUM (revenue <$>
           filter (λ t, sale_date_of t = sale_date o) fixture) ∧
       number_of_orders o =
         SQL.COUNT_DISTINCT (transaction_id <$>
           filter (λ t, sale_date_of t = sale_date o) fixture).
Proof.
  assert (Hin : daily_sales_row
                  (19001, filter (λ t, sale_date_of t = 19001) fixture)
                ∈ daily_sales_query fixture).
  { vm_compute. right. left. }
  eexists. split; [exact Hin|].
  exact (proj2 (proj2 (proj2 (proj1 daily_sales_query_correct fixture))) _ Hin).
Defined.

Lemma category_performance_query_correct_witness :
  ∃ o, o ∈ category_performance_query fixture ∧
       transactions_count o = 3 ∧
       total_items_sold o = 6 ∧
       avg_item_price o = 8.50%Q.
Proof.
  assert (Hin : category_performance_row
                  ("Books", "Online",
                   filter (λ t, category_key t = ("Books", "Online")) fixture)
                ∈ category_performance_query fixture).
  { vm_compute. left. }
  eexists. split; [exact Hin|].
  destruct (proj2 (proj2 (category_performance_query_correct fixture)) _ Hin)
    as (Hn & Hq & Hp & _).
  split; [exact Hn|]. split; [exact Hq|]. exact Hp.
Defined.

(** * Further properties of the scripts *)

(** ** Grouping partitions the table *)

Section group_by_partition.
Context `{Countable K} {A : Type} (key : A → K).

Lemma group_by_concat (rows : list A) :
  concat (map_to_list (SQL.group_by key rows)).*2 ≡ₚ rows.
Proof.
  induction rows as [|r rows IH]; simpl.
  - by rewrite map_to_list_empty.
  - destruct (SQL.group_by key rows !! key r) as [g|] eqn:E; simpl.
    + rewrite <- insert_delete_eq.
      rewrite map_to_list_insert by apply lookup_delete_eq.
      rewrite <- (map_to_list_delete _ _ _ E) in IH. simpl in *.
      by rewrite IH.
    + rewrite map_to_list_insert by done. simpl. by rewrite IH.
Qed.
End group_by_partition.

Lemma SUMZ_app (xs ys : list Z) : SQL.SUMZ (xs ++ ys) = SQL.SUMZ xs + SQL.SUMZ ys.
Proof. induction xs as [|x xs IH]; simpl; [done|]. rewrite IH. lia. Qed.

Lemma SUMZ_perm (xs ys : list Z) : xs ≡ₚ ys → SQL.SUMZ xs = SQL.SUMZ ys.
Proof. induction 1; simpl; lia. Qed.

Lemma SUM_app (xs ys : list Q) : (SQL.SUM (xs ++ ys) == SQL.SUM xs + SQL.SUM ys)%Q.
Proof. induction xs as [|x xs IH]; simpl; [ring|]. rewrite IH. ring. Qed.

Lemma SUM_perm (xs ys : list Q) : xs ≡ₚ ys → (SQL.SUM xs == SQL.SUM ys)%Q.
Proof.
  induction 1 as [|x xs ys _ IH|x y xs|xs ys zs _ IH1 _ IH2]; simpl.
  - reflexivity.
  - by rewrite IH.
  - ring.
  - by rewrite IH1.
Qed.

Lemma SUMZ_groups {A} (f : A → Z) (gs : list (list A)) :
  SQL.SUMZ ((λ g, SQL.SUMZ (f <$> g)) <$> gs) = SQL.SUMZ (f <$> concat gs).
Proof.
  induction gs as [|g gs IH]; [done|].
  cbn [concat]. by rewrite fmap_cons, fmap_app, SUMZ_app, <- IH.
Qed.

Lemma COUNT_groups {A} (gs : list (list A)) :
  SQL.SUMZ ((λ g, SQL.COUNT g) <$> gs) = Z.of_nat (length (concat gs)).
Proof.
  induction gs as [|g gs IH]; [done|].
  cbn [concat]. rewrite fmap_cons, length_app, Nat2Z.inj_add, <- IH. done.
Qed.

Lemma SUM_groups {A} (f : A → Q) (gs : list (list A)) :
  (SQL.SUM ((λ g, SQL.SUM (f <$> g)) <$> gs) == SQL.SUM (f <$> concat gs))%Q.
Proof.
  induction gs as [|g gs IH]; [reflexivity|].
  cbn [concat]. rewrite fmap_cons, fmap_app, SUM_app, <- IH. reflexivity.
Qed.

(** X1: summed over the result rows, the category-performance query accounts
    for every row and every item of the table exactly once. *)
Theorem category_performance_totals (table : list Transaction) :
  SQL.SUMZ (transactions_count <$> category_performance_query table) =
    Z.of_nat (length table) ∧
  SQL.SUMZ (total_items_sold <$> category_performance_query table) =
    SQL.SUMZ (quantity <$> table).
Proof.
  unfold category_performance_query. rewrite <- !list_fmap_compose. split.
  - change (transactions_count ∘ category_performance_row)
      with ((λ g : list Transaction, SQL.COUNT g)
            ∘ @snd (string * string) (list Transaction)).
    rewrite list_fmap_compose, COUNT_groups. by rewrite group_by_concat.
  - change (total_items_sold ∘ category_performance_row)
      with ((λ g, SQL.SUMZ (quantity <$> g))
            ∘ @snd (string * string) (list Transaction)).
    rewrite list_fmap_compose, SUMZ_groups. apply SUMZ_perm.
    by rewrite group_by_concat.
Qed.

(** X2: the daily revenues add up to the revenue of the whole table. *)
Theorem daily_sales_total_revenue (table : list Transaction) :
  (SQL.SUM (total_revenue <$> daily_sales_query table) ==
   SQL.SUM (revenue <$> table))%Q.
Proof.
  rewrite (SUM_perm _ _ (fmap_Permutation total_revenue _ _
                           (daily_sales_query_perm table))).
  rewrite <- list_fmap_compose.
  change (total_revenue ∘ daily_sales_row)
    with ((λ g, SQL.SUM (revenue <$> g)) ∘ @snd Z (list Transaction)).
  rewrite list_fmap_compose, SUM_groups. apply SUM_perm.
  by rewrite group_by_concat.
Qed.

(** ** Orders and averages of the daily-sales rows *)

Lemma COUNT_DISTINCT_le (xs : list Z) :
  SQL.COUNT_DISTINCT xs ≤ Z.of_nat (length xs).
Proof.
  unfold SQL.COUNT_DISTINCT. apply inj_le.
  induction xs as [|x xs IH]; [done|].
  - cbn [list_to_set foldr length]. rewrite size_union_alt, size_singleton.
    assert (Hsub : (list_to_set xs ∖ {[x]} : gset Z) ⊆ list_to_set xs)
      by apply subseteq_difference_l, reflexivity.
    apply subseteq_size in Hsub. apply le_n_S. by etrans.
Qed.

Lemma COUNT_DISTINCT_pos (xs : list Z) : xs ≠ [] → 1 ≤ SQL.COUNT_DISTINCT xs.
Proof.
  destruct xs as [|x xs]; [done|]. intros _. unfold SQL.COUNT_DISTINCT.
  simpl. rewrite size_union_alt, size_singleton. lia.
Qed.

Lemma COUNT_DISTINCT_NoDup (xs : list Z) :
  NoDup xs → SQL.COUNT_DISTINCT xs = Z.of_nat (length xs).
Proof. intros Hnd. unfold SQL.COUNT_DISTINCT. by rewrite size_list_to_set. Qed.

Lemma NoDup_fmap_filter {A B} (f : A → B) (P : A → Prop)
    `{∀ x, Decision (P x)} (l : list A) :
  NoDup (f <$> l) → NoDup (f <$> filter P l).
Proof.
  intros Hnd. eapply sublist_NoDup; [exact Hnd|].
  apply fmap_sublist, sublist_filter.
Qed.

(** X3: every day of the result has at least one order and at most as many
    orders as it has rows. *)
Theorem daily_sales_orders_bounds (table : list Transaction) (o : DailySales) :
  o ∈ daily_sales_query table →
  1 ≤ number_of_orders o
    ≤ Z.of_nat (length (filter (λ t, sale_date_of t = sale_date o) table)).
Proof.
  intros (rows & -> & Hne & Ho)%daily_sales_query_elem.
  rewrite Ho at 1 2. simpl. split.
  - apply COUNT_DISTINCT_pos. by destruct (filter _ table).
  - etrans; [apply COUNT_DISTINCT_le|]. by rewrite length_fmap.
Qed.

Lemma daily_sales_orders_bounds_witness :
  ∃ o, o ∈ daily_sales_query fixture ∧
       1 ≤ number_of_orders o
         ≤ Z.of_nat (length (filter (λ t, sale_date_of t = sale_date o) fixture)).
Proof.
  assert (Hin : daily_sales_row
                  (19001, filter (λ t, sale_date_of t = 19001) fixture)
                ∈ daily_sales_query fixture).
  { vm_compute. right. left. }
  eexists. split; [exact Hin|].
  exact (daily_sales_orders_bounds fixture _ Hin).
Defined.

Lemma orders_of_day_unique_ids (table : list Transaction) (o : DailySales) :
  NoDup (transaction_id <$> table) →
  o ∈ daily_sales_query table →
  number_of_orders o =
    Z.of_nat (length (filter (λ t, sale_date_of t = sale_date o) table)).
Proof.
  intros Hnd (rows & -> & Hne & Ho)%daily_sales_query_elem.
  rewrite Ho at 1. simpl.
  rewrite COUNT_DISTINCT_NoDup by (by apply NoDup_fmap_filter).
  by rewrite length_fmap.
Qed.

Lemma data_ids (num_rows : Z) (e : Entropy) :
  transaction_id <$> data num_rows e = seqZ 0 num_rows.
Proof.
  unfold data. rewrite <- list_fmap_compose.
  rewrite <- (list_fmap_id (seqZ 0 num_rows)) at 2.
  by apply list_fmap_ext.
Qed.

(** X4: when the transaction ids of the table are pairwise distinct, the number
    of orders of a day is the number of its rows, and the orders of all
    days add up to the number of rows of the table. *)
Theorem daily_sales_orders_unique_ids (table : list Transaction) :
  NoDup (transaction_id <$> table) →
  (∀ o, o ∈ daily_sales_query table →
        number_of_orders o =
          Z.of_nat (length (filter (λ t, sale_date_of t = sale_date o) table))) ∧
  SQL.SUMZ (number_of_orders <$> daily_sales_query table) =
    Z.of_nat (length table).
Proof.
  intros Hnd. split.
  - intros o Ho. by apply orders_of_day_unique_ids.
  - rewrite (SUMZ_perm _ _ (fmap_Permutation number_of_orders _ _
                              (daily_sales_query_perm table))).
    rewrite <- list_fmap_compose.
    rewrite (list_fmap_ext _ ((λ g : list Transaction, SQL.COUNT g)
                              ∘ @snd Z (list Transaction))).
    + rewrite list_fmap_compose, COUNT_groups. by rewrite group_by_concat.
    + intros i [d g] Hl. apply list_elem_of_lookup_2 in Hl.
      apply group_by_elem in Hl as [-> _]. simpl.
      rewrite COUNT_DISTINCT_NoDup by (by apply NoDup_fmap_filter).
      unfold SQL.COUNT. by rewrite length_fmap.
Qed.

Lemma daily_sales_orders_unique_ids_witness :
  NoDup (transaction_id <$> fixture) ∧
  SQL.SUMZ (number_of_orders <$> daily_sales_query fixture) = 3.
Proof.
  assert (Hnd : NoDup (transaction_id <$> fixture)).
  { by apply (bool_decide_unpack _). }
  split; [exact Hnd|].
  exact (proj2 (daily_sales_orders_unique_ids fixture Hnd)).
Defined.

(** X5: on the generated table every day has as many orders as rows: the
    generator numbers the transactions 0, 1, 2, ... *)
Theorem generated_orders_are_rows (num_rows : Z) (e : Entropy) (o : DailySales) :
  o ∈ daily_sales_query (data num_rows e) →
  number_of_orders o =
    Z.of_nat (length (filter (λ t, sale_date_of t = sale_date o)
                        (data num_rows e))).
Proof.
  apply orders_of_day_unique_ids. rewrite data_ids. apply NoDup_seqZ.
Qed.

Lemma generated_orders_are_rows_witness :
  ∃ o, o ∈ daily_sales_query (data 4 sample_entropy) ∧
       number_of_orders o =
         Z.of_nat (length (filter (λ t, sale_date_of t = sale_date o)
                             (data 4 sample_entropy))).
Proof.
  assert (Hin : daily_sales_row
                  (18518, filter (λ t, sale_date_of t = 18518)
                            (data 4 sample_entropy))
                ∈ daily_sales_query (data 4 sample_entropy)).
  { vm_compute. repeat constructor. }
  eexists. split; [exact Hin|].
  exact (generated_orders_are_rows 4 sample_entropy _ Hin).
Defined.

Lemma COUNT_pos {A} (xs : list A) : xs ≠ [] → (0 < inject_Z (SQL.COUNT xs))%Q.
Proof.
  intros Hne. unfold SQL.COUNT. change 0%Q with (inject_Z 0).
  rewrite <- Zlt_Qlt. destruct xs; [done|]. simpl. lia.
Qed.

Lemma AVG_times_COUNT (xs : list Q) :
  xs ≠ [] → (SQL.AVG xs * inject_Z (SQL.COUNT xs) == SQL.SUM xs)%Q.
Proof.
  intros Hne%COUNT_pos. unfold SQL.AVG. rewrite Qmult_comm.
  apply Qmult_div_r. lra.
Qed.

(** X6: the average order value of a day times the number of its rows is its
    total revenue. *)
Theorem daily_sales_average (table : list Transaction) (o : DailySales) :
  o ∈ daily_sales_query table →
  (average_order_value o *
     inject_Z (Z.of_nat
       (length (filter (λ t, sale_date_of t = sale_date o) table)))
   == total_revenue o)%Q.
Proof.
  intros (rows & -> & Hne & Ho)%daily_sales_query_elem.
  set (rows := filter (λ t, sale_date_of t = sale_date o) table) in *.
  rewrite Ho. cbn [average_order_value total_revenue daily_sales_row snd].
  rewrite <- (length_fmap revenue). apply AVG_times_COUNT.
  by destruct rows.
Qed.

Lemma daily_sales_average_witness :
  ∃ o, o ∈ daily_sales_query fixture ∧
       (average_order_value o *
          inject_Z (Z.of_nat
            (length (filter (λ t, sale_date_of t = sale_date o) fixture)))
        == total_revenue o)%Q.
Proof.
  assert (Hin : daily_sales_row
                  (19001, filter (λ t, sale_date_of t = 19001) fixture)
                ∈ daily_sales_query fixture).
  { vm_compute. right. left. }
  eexists. split; [exact Hin|].
  exact (daily_sales_average fixture _ Hin).
Defined.

(** ** The category-performance rows of a table that conforms to the schema *)

Lemma SUMZ_quantity_bounds (g : list Transaction) :
  Forall row_conforms g →
  Z.of_nat (length g) ≤ SQL.SUMZ (quantity <$> g) ≤ 5 * Z.of_nat (length g).
Proof.
  induction 1 as [|t g Ht _ IH]; [simpl; lia|].
  rewrite fmap_cons, length_cons.
  change (SQL.SUMZ (quantity t :: (quantity <$> g)))
    with (quantity t + SQL.SUMZ (quantity <$> g)).
  destruct Ht as (Hq & _). lia.
Qed.

Lemma SUM_bounds (a b : Q) (xs : list Q) :
  Forall (λ x, a <= x <= b)%Q xs →
  (a * inject_Z (SQL.COUNT xs) <= SQL.SUM xs <= b * inject_Z (SQL.COUNT xs))%Q.
Proof.
  unfold SQL.COUNT. induction 1 as [|x xs Hx _ IH].
  - change (a * 0 <= 0 <= b * 0)%Q. lra.
  - cbn [length SQL.SUM foldr]. fold (SQL.SUM xs).
    rewrite Nat2Z.inj_succ, <- Z.add_1_r, inject_Z_plus.
    change (inject_Z 1) with 1%Q.
    generalize dependent (inject_Z (Z.of_nat (length xs))). intros n IH.
    generalize dependent (SQL.SUM xs). intros s IH. lra.
Qed.

Lemma AVG_bounds (a b : Q) (xs : list Q) :
  xs ≠ [] → Forall (λ x, a <= x <= b)%Q xs → (a <= SQL.AVG xs <= b)%Q.
Proof.
  intros Hne%COUNT_pos [Hlo Hhi]%SUM_bounds. unfold SQL.AVG. split.
  - by apply Qle_shift_div_l.
  - by apply Qle_shift_div_r.
Qed.

Lemma ROUND2_range (x : Q) (a b : Z) :
  0 ≤ a → (inject_Z a <= x * 100 <= inject_Z b)%Q →
  (a # 100 <= SQL.ROUND2 x <= b # 100)%Q.
Proof.
  intros Ha [Hlo Hhi].
  assert (Hpos : (0 <= x * 100)%Q).
  { assert (inject_Z 0 <= inject_Z a)%Q by (by rewrite <- Zle_Qle).
    change (inject_Z 0) with 0%Q in *. lra. }
  assert (Hr : a ≤ SQL.round_half_away (x * 100) ≤ b).
  { unfold SQL.round_half_away.
    apply Qle_bool_iff in Hpos. rewrite Hpos. split.
    - rewrite <- (Qfloor_Z a). apply Qfloor_resp_le. lra.
    - pose proof (Qfloor_le (x * 100 + (1 # 2))) as Hf.
      assert (Hlt : (inject_Z (Qfloor (x * 100 + (1 # 2))) < inject_Z (b + 1))%Q).
      { rewrite inject_Z_plus. change (inject_Z 1) with 1%Q. lra. }
      rewrite <- Zlt_Qlt in Hlt. lia. }
  unfold SQL.ROUND2, Qle. simpl. lia.
Qed.

(** X7: on a table whose rows conform to the schema, every result row of the
    category-performance query sells between one and five items per
    transaction, has an average price within the price range and carries a
    category and a store of the vocabularies. *)
Theorem category_performance_conforming
    (table : list Transaction) (o : CategoryPerformance) :
  Forall row_conforms table →
  o ∈ category_performance_query table →
  transactions_count o ≤ total_items_sold o ≤ 5 * transactions_count o ∧
  (5.50 <= avg_item_price o <= 500.99)%Q ∧
  cp_product_category o ∈ product_categories ∧
  cp_store_location o ∈ store_locations.
Proof.
  intros Hconf (rows & -> & Hne & Ho)%category_performance_query_elem.
  set (rows := filter (λ t, category_key t = cp_key o) table) in *.
  assert (Hrows : Forall row_conforms rows).
  { apply Forall_forall. intros t [_ Ht]%list_elem_of_filter.
    by apply (proj1 (Forall_forall _ _) Hconf). }
  assert (Hvocab : cp_product_category o ∈ product_categories ∧
                   cp_store_location o ∈ store_locations).
  { destruct rows as [|t rows'] eqn:E; [done|].
    assert (Ht : t ∈ filter (λ t, category_key t = cp_key o) table)
      by (fold rows; rewrite E; left).
    apply list_elem_of_filter in Ht as [Hk Ht].
    apply (proj1 (Forall_forall _ _) Hconf) in Ht as (_ & _ & _ & Hs & Hc).
    injection Hk as <- <-. done. }
  assert (Havg : (5.50 <= SQL.AVG (price_per_item <$> rows) <= 500.99)%Q).
  { apply AVG_bounds; [by destruct rows|].
    apply Forall_fmap, (Forall_impl _ _ _ Hrows).
    by intros t (_ & Hp & _). }
  assert (Hround : (550 # 100 <= SQL.ROUND2 (SQL.AVG (price_per_item <$> rows))
                    <= 50099 # 100)%Q).
  { apply ROUND2_range; [lia|].
    change (inject_Z 550) with 550%Q. change (inject_Z 50099) with 50099%Q. lra. }
  split; [|split; [|exact Hvocab]].
  - rewrite Ho. apply SUMZ_quantity_bounds, Hrows.
  - rewrite Ho. exact Hround.
Qed.

Lemma data_conforms (num_rows : Z) (e : Entropy) :
  Forall row_conforms (data num_rows e).
Proof.
  unfold data. apply Forall_fmap, Forall_forall. intros i _.
  unfold row_conforms. cbn [data_row quantity price_per_item store_location
    product_category].
  pose proof (randint_range 1 6 (quantity_raw e i) eq_refl).
  pose proof (price_range (price_raw e i)).
  split; [done|]. split; [done|]. split; [apply round2_idempotent|].
  split; [apply choice_store|apply choice_category].
Qed.

Lemma category_performance_conforming_witness :
  ∃ o, Forall row_conforms (data 4 sample_entropy) ∧
       o ∈ category_performance_query (data 4 sample_entropy) ∧
       transactions_count o ≤ total_items_sold o ≤ 5 * transactions_count o ∧
       (5.50 <= avg_item_price o <= 500.99)%Q ∧
       cp_product_category o ∈ product_categories ∧
       cp_store_location o ∈ store_locations.
Proof.
  assert (Hconf : Forall row_conforms (data 4 sample_entropy))
    by apply data_conforms.
  assert (Hin : category_performance_row
                  ("Electronics", "London",
                   filter (λ t, category_key t = ("Electronics", "London"))
                     (data 4 sample_entropy))
                ∈ category_performance_query (data 4 sample_entropy)).
  { vm_compute. repeat constructor. }
  eexists. split; [exact Hconf|]. split; [exact Hin|].
  exact (category_performance_conforming _ _ Hconf Hin).
Defined.

(** ** The daily-sales result does not depend on the order of the rows *)

Lemma daily_sales_dates_sorted (table : list Transaction) :
  StronglySorted Z.lt (sale_date <$> daily_sales_query table).
Proof.
  apply StronglySorted_le_lt.
  - apply (StronglySorted_fmap sale_date by_sale_date Z.le); [done|].
    apply (StronglySorted_merge_sort by_sale_date).
  - rewrite daily_sales_query_dates. apply NoDup_fst_map_to_list.
Qed.

Lemma daily_sales_dates_elem (table : list Transaction) (d : Z) :
  d ∈ sale_date <$> daily_sales_query table ↔
  ∃ t, t ∈ table ∧ sale_date_of t = d.
Proof. rewrite daily_sales_query_dates. apply group_by_keys. Qed.

Lemma daily_sales_query_by_dates (table : list Transaction) :
  daily_sales_query table =
  (λ d, daily_sales_row (d, filter (λ t, sale_date_of t = d) table))
    <$> (sale_date <$> daily_sales_query table).
Proof.
  rewrite <- list_fmap_compose.
  rewrite <- (list_fmap_id (daily_sales_query table)) at 1.
  apply list_fmap_ext. intros i o Hl. apply list_elem_of_lookup_2 in Hl.
  by apply daily_sales_query_elem in Hl as (rows & -> & _ & Ho).
Qed.

Lemma daily_sales_row_perm (d : Z) (g1 g2 : list Transaction) :
  g1 ≡ₚ g2 → daily_sales_equiv (daily_sales_row (d, g1)) (daily_sales_row (d, g2)).
Proof.
  intros Hp. unfold daily_sales_equiv, daily_sales_row. simpl.
  assert (Hsum : (SQL.SUM (revenue <$> g1) == SQL.SUM (revenue <$> g2))%Q)
    by (by apply SUM_perm, fmap_Permutation).
  split; [done|]. split; [done|]. split.
  - unfold SQL.COUNT_DISTINCT. by rewrite Hp.
  - unfold SQL.AVG, SQL.COUNT. rewrite Hsum, !length_fmap.
    by rewrite (Permutation_length Hp).
Qed.

#[local] Instance Zlt_antisymm : AntiSymm (=) Z.lt.
Proof. intros x y ??. lia. Qed.

(** X8: two tables with the same rows in a different order give the same
    daily-sales result: the same dates in the same order, with the same
    order counts and (as numbers) the same revenues and averages. *)
Theorem daily_sales_query_row_order (table1 table2 : list Transaction) :
  table1 ≡ₚ table2 →
  Forall2 daily_sales_equiv (daily_sales_query table1) (daily_sales_query table2).
Proof.
  intros Hp.
  assert (Hdates : sale_date <$> daily_sales_query table1 =
                   sale_date <$> daily_sales_query table2).
  { apply (StronglySorted_unique Z.lt); try apply daily_sales_dates_sorted.
    apply NoDup_Permutation.
    - rewrite daily_sales_query_dates. apply NoDup_fst_map_to_list.
    - rewrite daily_sales_query_dates. apply NoDup_fst_map_to_list.
    - intros d. rewrite !daily_sales_dates_elem.
      by setoid_rewrite Hp. }
  rewrite (daily_sales_query_by_dates table1),
    (daily_sales_query_by_dates table2), Hdates.
  apply Forall2_fmap, Forall_Forall2_diag, Forall_forall. intros d _.
  apply daily_sales_row_perm. by rewrite Hp.
Qed.

Lemma daily_sales_query_row_order_witness :
  fixture ≡ₚ reverse fixture ∧
  Forall2 daily_sales_equiv
    (daily_sales_query fixture) (daily_sales_query (reverse fixture)).
Proof.
  assert (Hp : fixture ≡ₚ reverse fixture)
    by (symmetry; apply reverse_Permutation).
  split; [exact Hp|].
  exact (daily_sales_query_row_order fixture (reverse fixture) Hp).
Defined.

(** ** More on the generated rows *)

(** X9: the generated table has [num_rows] rows, and every row has a product
    id in [1000,2000) and a customer id in [10000,20000). *)
Theorem generated_size_and_ids (num_rows : Z) (e : Entropy) :
  Z.of_nat (length (data num_rows e)) = Z.max 0 num_rows ∧
  Forall (λ t, 1000 ≤ product_id t < 2000 ∧ 10000 ≤ customer_id t < 20000)
    (data num_rows e).
Proof.
  split.
  - unfold data. rewrite length_fmap, length_seqZ. lia.
  - unfold data. apply Forall_fmap, Forall_forall. intros i _.
    cbn [data_row product_id customer_id compose]. split.
    + by apply randint_range.
    + by apply randint_range.
Qed.

Lemma Qle_bool_true (c u : Q) : (c <= u)%Q → Qle_bool c u = true.
Proof. apply Qle_bool_iff. Qed.

Lemma Qle_bool_false (c u : Q) : (u < c)%Q → Qle_bool c u = false.
Proof.
  intros Hlt. destruct (Qle_bool c u) eqn:E; [|done].
  apply Qle_bool_iff in E. lra.
Qed.

Local Ltac decide_thresholds u :=
  repeat match goal with
  | |- context [Qle_bool ?c u] =>
      first [ rewrite (Qle_bool_true c u) by lra
            | rewrite (Qle_bool_false c u) by lra ]
  end.

(** X10: the store of a row is drawn with the declared weights: it is decided by
    where the uniform sample falls among the cumulative weights 0.3, 0.5,
    0.8, 0.9. *)
Theorem store_location_weights (raw : Z) :
  ((NumPy.random_sample raw < 0.3)%Q →
   NumPy.choice store_locations store_weights raw = "New York") ∧
  ((0.3 <= NumPy.random_sample raw < 0.5)%Q →
   NumPy.choice store_locations store_weights raw = "London") ∧
  ((0.5 <= NumPy.random_sample raw < 0.8)%Q →
   NumPy.choice store_locations store_weights raw = "Online") ∧
  ((0.8 <= NumPy.random_sample raw < 0.9)%Q →
   NumPy.choice store_locations store_weights raw = "Tokyo") ∧
  ((0.9 <= NumPy.random_sample raw)%Q →
   NumPy.choice store_locations store_weights raw = "Sydney").
Proof.
  pose proof (random_sample_range raw) as Hu. unfold NumPy.choice.
  generalize dependent (NumPy.random_sample raw). intros u Hu.
  eassert (Hcdf : (λ c, c / List.last (NumPy.cumsum store_weights) 1)%Q
                    <$> NumPy.cumsum store_weights = _)
    by (vm_compute; reflexivity).
  rewrite Hcdf. clear Hcdf. cbn [NumPy.searchsorted_right].
  split_and!; intros Hr; decide_thresholds u; reflexivity.
Qed.

Lemma store_location_weights_witness :
  (NumPy.random_sample 0 < 0.3)%Q ∧
  NumPy.choice store_locations store_weights 0 = "New York".
Proof.
  assert (H0 : (NumPy.random_sample 0 < 0.3)%Q) by reflexivity.
  split; [exact H0|]. exact (proj1 (store_location_weights 0) H0).
Defined.

(** ** The generator on a fresh directory *)

(** X13: when the Parquet file does not exist, a run of the generator creates it
    with [NUM_ROWS] rows and changes nothing else. *)
Theorem generate_dummy_data_fresh (e : Entropy) (fs : filesystem) :
  data_file fs = None →
  replay (generate_dummy_data e fs) fs =
    {| data_file := Some (data NUM_ROWS e); output_dir := output_dir fs |} ∧
  Z.of_nat (length (data NUM_ROWS e)) = 10000000.
Proof.
  intros Hnone. split.
  - unfold generate_dummy_data.
    rewrite decide_False by (rewrite Hnone; by intros [? ?]). done.
  - unfold data. rewrite length_fmap, length_seqZ. done.
Qed.

Lemma generate_dummy_data_fresh_witness :
  data_file empty_fs = None ∧
  replay (generate_dummy_data sample_entropy empty_fs) empty_fs =
    {| data_file := Some (data NUM_ROWS sample_entropy); output_dir := None |}.
Proof.
  assert (Hnone : data_file empty_fs = None) by reflexivity.
  split; [exact Hnone|].
  exact (proj1 (generate_dummy_data_fresh sample_entropy empty_fs Hnone)).
Defined.

(** ** More on the report stage *)

Lemma length_filter_disjoint {A} (P Q : A → Prop)
    `{∀ x, Decision (P x)} `{∀ x, Decision (Q x)} (l : list A) :
  (∀ x, P x → Q x → False) →
  (length (filter P l) + length (filter Q l) ≤ length l)%nat.
Proof.
  intros Hdisj. induction l as [|x l IH]; [done|].
  rewrite !filter_cons. destruct (decide (P x)), (decide (Q x));
    simpl; try lia. exfalso. eauto.
Qed.

(** X14: a report consists of at least the summary and of at most three files
    more than the table has columns. *)
Theorem report_file_bound (df : DataFrame) (report_title : string) :
  (1 ≤ length (saved (automated_exploratory_analysis df report_title))
     ≤ length df + 3)%nat.
Proof.
  destruct (decide (numerical_cols df = [])) as [Habort|Hnum].
  { rewrite saved_report_abort by done. simpl. lia. }
  rewrite saved_report by done. rewrite !length_app, !length_fmap.
  assert (Hcls : (length (numerical_cols df) + length (categorical_cols df)
                  ≤ length df)%nat).
  { unfold numerical_cols, categorical_cols, columns, select_dtypes.
    rewrite !length_fmap. apply length_filter_disjoint.
    intros c H1 H2. destruct (col_dtype c); simpl in *; discriminate. }
  destruct (missing_values df); case_decide; simpl; lia.
Qed.

(** X15: the missing-values chart lists exactly the columns that have a missing
    value, each with a positive count. *)
Theorem missing_values_columns (df : DataFrame) :
  (∀ name, name ∈ (missing_values df).*1 ↔
           ∃ c, c ∈ df ∧ col_name c = name ∧ None ∈ col_values c) ∧
  (∀ name n, (name, n) ∈ missing_values df →
             (0 < n)%nat ∧
             ∃ c, c ∈ df ∧ col_name c = name ∧ (n ≤ length (col_values c))%nat).
Proof.
  unfold missing_values, isnull_sum. split.
  - intros name. rewrite list_elem_of_fmap. split.
    + intros ([name' n] & -> & [Hpos Hin]%list_elem_of_filter).
      apply list_elem_of_fmap in Hin as (c & [= -> ->] & Hc).
      exists c. split; [done|]. split; [done|]. by apply null_count_pos.
    + intros (c & Hc & <- & Hnull).
      exists (col_name c,
              length (filter (λ v, isnull v = true) (col_values c))).
      split; [done|]. apply list_elem_of_filter. split.
      * by apply null_count_pos.
      * apply list_elem_of_fmap. by exists c.
  - intros name n [Hpos Hin]%list_elem_of_filter.
    apply list_elem_of_fmap in Hin as (c & [= -> ->] & Hc).
    split; [done|]. exists c. split; [done|]. split; [done|].
    apply length_filter.
Qed.

Lemma missing_values_columns_witness :
  ("amount", 1%nat) ∈ missing_values df_with_null ∧
  ∃ c, c ∈ df_with_null ∧ col_name c = "amount" ∧
       (1 ≤ length (col_values c))%nat.
Proof.
  assert (Hin : ("amount", 1%nat) ∈ missing_values df_with_null)
    by (vm_compute; left).
  split; [exact Hin|].
  exact (proj2 (proj2 (missing_values_columns df_with_null) _ _ Hin)).
Defined.

(** ** The loaded frames *)

(** X17: [load_data_with_duckdb] executes its query once; the daily-sales frame
    has four columns and one row per distinct date, the category frame
    five columns and one row per distinct (category, store) pair, and the
    shape line printed is the shape of the frame returned. *)
Theorem load_data_shapes (table : list Transaction) :
  shape (load_data_with_duckdb DailySalesQuery table).2 =
    (size (list_to_set (C := gset Z) (sale_date_of <$> table)), 4%nat) ∧
  shape (load_data_with_duckdb CategoryPerformanceQuery table).2 =
    (size (list_to_set (C := gset (string * string)) (category_key <$> table)),
     5%nat) ∧
  ∀ q, executed (load_data_with_duckdb q table).1 = [q] ∧
       printed (load_data_with_duckdb q table).1 =
         ["Executing query with DuckDB...";
          "Data loaded successfully. Shape: " +:+
            shape_str (load_data_with_duckdb q table).2].
Proof.
  split; [|split; [|done]].
  - unfold shape. simpl. rewrite length_fmap.
    rewrite daily_sales_query_perm, length_fmap. by rewrite group_by_length.
  - unfold shape. simpl. rewrite length_fmap. unfold category_performance_query.
    by rewrite length_fmap, group_by_length.
Qed.

(** ** Replaying a run on the file system *)

Lemma write_all_snoc (dir : gmap string artifact) files f a :
  write_all dir (files ++ [(f, a)]) = <[f := a]> (write_all dir files).
Proof. unfold write_all. by rewrite foldl_snoc. Qed.

Lemma write_all_lookup_notin (dir : gmap string artifact) files f :
  f ∉ files.*1 → write_all dir files !! f = dir !! f.
Proof.
  induction files as [|[f' a'] files IH] using rev_ind; [done|].
  rewrite fmap_app, not_elem_of_app. intros [Hf Hf'].
  rewrite write_all_snoc, lookup_insert_ne; [by apply IH|].
  intros ->. apply Hf'. simpl. left.
Qed.

Lemma write_all_lookup_in (dir : gmap string artifact) files f a :
  NoDup files.*1 → (f, a) ∈ files → write_all dir files !! f = Some a.
Proof.
  induction files as [|[f' a'] files IH] using rev_ind.
  - by intros _ ?%not_elem_of_nil.
  - rewrite fmap_app, NoDup_app, elem_of_app. intros (Hnd & Hdisj & _) Hin.
    rewrite write_all_snoc. destruct Hin as [Hin|Hin].
    + rewrite lookup_insert_ne; [by apply IH|]. intros ->.
      apply (Hdisj f); [|left]. by apply (list_elem_of_fmap_2 fst _ (f, a)).
    + apply list_elem_of_singleton in Hin as [= -> ->].
      apply lookup_insert_eq.
Qed.

Lemma write_all_dom (dir : gmap string artifact) files :
  dom (write_all dir files) = dom dir ∪ list_to_set files.*1.
Proof.
  induction files as [|[f a] files IH] using rev_ind.
  - apply set_eq. intros k. simpl.
    rewrite elem_of_union, elem_of_empty. tauto.
  - rewrite write_all_snoc, dom_insert_L, IH, fmap_app, list_to_set_app_L.
    apply set_eq. intros k. simpl.
    rewrite !elem_of_union, elem_of_singleton, elem_of_empty. tauto.
Qed.

Lemma write_all_insert_last (dir : gmap string artifact) files f a :
  <[f := a]> (write_all (<[f := a]> dir) files) = <[f := a]> (write_all dir files).
Proof.
  revert dir. induction files as [|[f' a'] files IH]; intros dir.
  - simpl. apply insert_insert_eq.
  - change (write_all ?d ((f', a') :: files))
      with (write_all (<[f' := a']> d) files).
    destruct (decide (f' = f)) as [->|Hne].
    + by rewrite insert_insert_eq.
    + rewrite insert_insert_ne by done. apply IH.
Qed.

Lemma write_all_twice (dir : gmap string artifact) files :
  write_all (write_all dir files) files = write_all dir files.
Proof.
  induction files as [|[f a] files IH] using rev_ind; [done|].
  rewrite !write_all_snoc, write_all_insert_last. by rewrite IH.
Qed.

Lemma replay_no_parquet (trace : list event) (fs : filesystem) dir :
  Forall no_parquet_write trace →
  output_dir fs = Some dir →
  replay trace fs =
    {| data_file := data_file fs;
       output_dir := Some (write_all dir (saved trace)) |}.
Proof.
  intros Hpure. revert fs dir.
  induction Hpure as [|ev trace Hev _ IH]; intros fs dir Hdir.
  - destruct fs. simpl in *. by subst.
  - change (replay (ev :: trace) fs) with (replay trace (step fs ev)).
    destruct ev; try done; simpl;
      try (rewrite (IH fs dir) by done; done).
    + rewrite (IH _ dir) by (simpl; by rewrite Hdir). done.
    + rewrite (IH _ (<[file := a]> dir)) by (simpl; by rewrite Hdir). done.
Qed.

Lemma category_performance_frame_cols (rows : list CategoryPerformance) :
  numerical_cols (category_performance_frame rows) =
    ["transactions_count"; "total_items_sold"; "avg_item_price"] ∧
  categorical_cols (category_performance_frame rows) =
    ["product_category"; "store_location"].
Proof. done. Qed.

Lemma report_completes (df : DataFrame) (report_title : string) :
  numerical_cols df ≠ [] →
  automated_exploratory_analysis df report_title =
    [Print (nl +:+ "--- Generating EDA Report for: " +:+ report_title +:+ " ---");
     Print (nl +:+ "1. Basic Information");
     Save (report_title +:+ "_summary.txt")
          (SummaryText (summary df report_title))]
    ++ match missing_values df with
       | [] => []
       | counts => [Save (report_title +:+ "_missing_values.png")
                         (MissingValuesBar counts)]
       end
    ++ ((λ col, Save (report_title +:+ "_univariate_" +:+ col +:+ ".png")
                     (HistogramBoxplot col)) <$> numerical_cols df)
    ++ ((λ col, Save (report_title +:+ "_univariate_" +:+ col +:+ ".png")
                     (CountPlot col 20)) <$> categorical_cols df)
    ++ (if decide (1 < length (numerical_cols df))%nat then
          [Save (report_title +:+ "_correlation_matrix.png")
                (CorrelationHeatmap (numerical_cols df) true ".2f")]
        else [])
    ++ [Print ("--- EDA Report for " +:+ report_title +:+
               " Complete. Files saved to '" +:+ OUTPUT_DIR +:+ "'. ---")].
Proof.
  intros Hnum. unfold automated_exploratory_analysis.
  by destruct (numerical_cols df).
Qed.

Lemma report_raised (df : DataFrame) (report_title : string) :
  raised (automated_exploratory_analysis df report_title) =
  bool_decide (numerical_cols df = []).
Proof.
  destruct (decide (numerical_cols df = [])) as [Habort|Hnum].
  - rewrite report_aborts, bool_decide_eq_true_2 by done. done.
  - rewrite report_completes, bool_decide_eq_false_2 by done.
    unfold raised. by rewrite !app_assoc, last_snoc.
Qed.

Lemma main_runs (fs : filesystem) (table : list Transaction) :
  data_file fs = Some table →
  main fs =
    MakeDirs ::
    [Connect]
    ++ (load_data_with_duckdb DailySalesQuery table).1
    ++ automated_exploratory_analysis (df_daily_sales table)
         "duckdb_daily_sales"
    ++ (load_data_with_duckdb CategoryPerformanceQuery table).1
    ++ automated_exploratory_analysis (df_category table)
         "duckdb_category_performance"
    ++ [Close].
Proof.
  intros Hdata. unfold main. rewrite Hdata.
  rewrite decide_True
    by (unfold load_data_with_duckdb, fetchdf; cbn [snd];
        by rewrite convert_sale_date_daily).
  unfold and_then. rewrite !report_raised, df_daily_sales_eq.
  by rewrite !bool_decide_eq_false_2.
Qed.

Lemma report_no_parquet (df : DataFrame) (report_title : string) :
  Forall no_parquet_write (automated_exploratory_analysis df report_title).
Proof.
  destruct (decide (numerical_cols df = [])) as [Habort|Hnum].
  { rewrite report_aborts by done. by repeat constructor. }
  rewrite report_completes by done. rewrite !Forall_app. split_and!.
  - by repeat constructor.
  - by destruct (missing_values df); repeat constructor.
  - by apply Forall_fmap, Forall_true.
  - by apply Forall_fmap, Forall_true.
  - by case_decide; repeat constructor.
  - by repeat constructor.
Qed.

Lemma main_no_parquet (fs : filesystem) : Forall no_parquet_write (main fs).
Proof.
  destruct (data_file fs) as [table|] eqn:Hdata.
  - rewrite (main_runs fs table Hdata). constructor; [done|].
    rewrite !Forall_app. split_and!; try apply report_no_parquet;
      by repeat constructor.
  - unfold main. rewrite Hdata. by repeat constructor.
Qed.

Lemma replay_main (fs : filesystem) :
  replay (main fs) fs =
    {| data_file := data_file fs;
       output_dir :=
         Some (write_all (default ∅ (output_dir fs)) (saved (main fs))) |}.
Proof.
  pose proof (main_no_parquet fs) as Hpure.
  assert (Hmain : ∃ rest, main fs = MakeDirs :: rest) by (by eexists).
  destruct Hmain as [rest Hmain]. rewrite Hmain in *.
  apply Forall_cons in Hpure as [_ Hpure].
  change (replay (MakeDirs :: rest) fs) with (replay rest (step fs MakeDirs)).
  by rewrite (replay_no_parquet _ _ (default ∅ (output_dir fs))).
Qed.

Lemma main_data_only (fs1 fs2 : filesystem) :
  data_file fs1 = data_file fs2 → main fs1 = main fs2.
Proof. intros Heq. unfold main. by rewrite Heq. Qed.

(** X18: running the report script a second time leaves the file system as the
    first run left it: the report files are overwritten with the same
    content and nothing is added. *)
Theorem main_rerun (fs : filesystem) :
  replay (main (replay (main fs) fs)) (replay (main fs) fs) =
  replay (main fs) fs.
Proof.
  pose proof (replay_main fs) as E.
  set (fs1 := replay (main fs) fs) in *.
  assert (Hm : main fs1 = main fs) by (apply main_data_only; by rewrite E).
  rewrite Hm.
  rewrite (replay_no_parquet (main fs) fs1
             (write_all (default ∅ (output_dir fs)) (saved (main fs))));
    [|apply main_no_parquet|by rewrite E].
  rewrite write_all_twice. by rewrite E.
Qed.

(** X19: the report script only reads the Parquet file: whatever the state, the
    file is the same after a run, and a run never writes Parquet. *)
Theorem main_keeps_data_file (fs : filesystem) :
  data_file (replay (main fs) fs) = data_file fs ∧
  ∀ rows, WriteParquet rows ∉ main fs.
Proof.
  split; [by rewrite replay_main|]. intros rows Hin.
  by apply (proj1 (Forall_forall _ _) (main_no_parquet fs)) in Hin.
Qed.

(** ** A complete run of the report script *)

Lemma null_count_Some {A} (f : A → scalar) (l : list A) :
  filter (λ v, isnull v = true) ((λ r, Some (f r)) <$> l) = [].
Proof.
  induction l as [|x l IH]; [done|].
  rewrite fmap_cons, filter_cons_False by done. exact IH.
Qed.

Lemma daily_sales_frame_no_null (rows : list DailySales) :
  missing_values (daily_sales_frame rows) = [].
Proof.
  unfold missing_values, isnull_sum, daily_sales_frame.
  rewrite !fmap_cons. cbn [col_name col_values].
  rewrite (null_count_Some (λ r, STime (sale_date r))),
    (null_count_Some (λ r, SFloat (total_revenue r))),
    (null_count_Some (λ r, SInt (number_of_orders r))),
    (null_count_Some (λ r, SFloat (average_order_value r))).
  done.
Qed.

Lemma category_performance_frame_no_null (rows : list CategoryPerformance) :
  missing_values (category_performance_frame rows) = [].
Proof.
  unfold missing_values, isnull_sum, category_performance_frame.
  rewrite !fmap_cons. cbn [col_name col_values].
  rewrite (null_count_Some (λ r, SStr (cp_product_category r))),
    (null_count_Some (λ r, SStr (cp_store_location r))),
    (null_count_Some (λ r, SInt (transactions_count r))),
    (null_count_Some (λ r, SFloat (inject_Z (total_items_sold r)))),
    (null_count_Some (λ r, SFloat (avg_item_price r))).
  done.
Qed.

Lemma main_saved_names (fs : filesystem) (table : list Transaction) :
  data_file fs = Some table → (saved (main fs)).*1 = main_report_files.
Proof.
  intros Hdata. rewrite (main_runs fs table Hdata).
  change (saved (MakeDirs :: ?t)) with (saved t).
  rewrite df_daily_sales_eq.
  unfold df_category, load_data_with_duckdb, fetchdf. cbn [fst snd].
  rewrite !saved_app, !saved_report by done.
  rewrite daily_sales_frame_no_null, category_performance_frame_no_null.
  destruct (daily_sales_frame_cols (daily_sales_query table))
    as (_ & -> & ->).
  destruct (category_performance_frame_cols (category_performance_query table))
    as (-> & ->).
  reflexivity.
Qed.

Lemma report_executes_nothing (df : DataFrame) (report_title : string) :
  executed (automated_exploratory_analysis df report_title) = [] ∧
  Exit ∉ automated_exploratory_analysis df report_title.
Proof.
  destruct (decide (numerical_cols df = [])) as [Habort|Hnum].
  { rewrite report_aborts by done. split; [done|]. intros H.
    repeat (apply elem_of_cons in H as [H|H]; [discriminate|]).
    by apply not_elem_of_nil in H. }
  rewrite report_completes by done. unfold executed. split.
  - rewrite !omap_app.
    assert (Hsave : ∀ (f : string → string) (a : string → artifact) l,
              omap (λ ev, match ev with Execute q => Some q | _ => None end)
                ((λ col, Save (f col) (a col)) <$> l) = []).
    { intros f a l. induction l as [|x l IH]; [done|]. exact IH. }
    rewrite !Hsave. by destruct (missing_values df); case_decide.
  - rewrite !elem_of_app.
    intros [H|[H|[H|[H|[H|H]]]]].
    + repeat (apply elem_of_cons in H as [H|H]; [discriminate|]).
      by apply not_elem_of_nil in H.
    + destruct (missing_values df);
        repeat (apply elem_of_cons in H as [H|H]; [discriminate|]);
        by apply not_elem_of_nil in H.
    + by apply list_elem_of_fmap in H as (? & ? & _).
    + by apply list_elem_of_fmap in H as (? & ? & _).
    + case_decide;
        repeat (apply elem_of_cons in H as [H|H]; [discriminate|]);
        by apply not_elem_of_nil in H.
    + repeat (apply elem_of_cons in H as [H|H]; [discriminate|]).
      by apply not_elem_of_nil in H.
Qed.

Lemma main_executed (fs : filesystem) (table : list Transaction) :
  data_file fs = Some table →
  executed (main fs) = [DailySalesQuery; CategoryPerformanceQuery] ∧
  Exit ∉ main fs.
Proof.
  intros Hdata. rewrite (main_runs fs table Hdata). split.
  - unfold executed. change (omap ?f (MakeDirs :: ?t)) with (omap f t).
    rewrite !omap_app.
    fold (executed (automated_exploratory_analysis (df_daily_sales table)
                      "duckdb_daily_sales")).
    fold (executed (automated_exploratory_analysis (df_category table)
                      "duckdb_category_performance")).
    by rewrite !(proj1 (report_executes_nothing _ _)).
  - intros H. apply elem_of_cons in H as [H|H]; [discriminate|].
    rewrite !elem_of_app in H.
    destruct H as [H|[H|[H|[H|[H|H]]]]];
      try (by apply report_executes_nothing in H);
      repeat (apply elem_of_cons in H as [H|H]; [discriminate|]);
      by apply not_elem_of_nil in H.
Qed.

(** X20: with the data file in place, a run of the report script executes the
    two queries in order, never takes the early exit, and saves the same
    twelve report files whatever the table holds. *)
Theorem main_complete_run (fs : filesystem) (table : list Transaction) :
  data_file fs = Some table →
  executed (main fs) = [DailySalesQuery; CategoryPerformanceQuery] ∧
  (Exit ∉ main fs) ∧
  (saved (main fs)).*1 = main_report_files.
Proof.
  intros Hdata. destruct (main_executed fs table Hdata) as [Hq Hx].
  split; [done|]. split; [done|]. by apply main_saved_names with table.
Qed.

Lemma main_complete_run_witness :
  data_file fs_with_data = Some fixture ∧
  executed (main fs_with_data) = [DailySalesQuery; CategoryPerformanceQuery] ∧
  (saved (main fs_with_data)).*1 = main_report_files.
Proof.
  assert (Hdata : data_file fs_with_data = Some fixture) by reflexivity.
  destruct (main_complete_run fs_with_data fixture Hdata) as (Hq & _ & Hs).
  split; [exact Hdata|]. split; [exact Hq|exact Hs].
Defined.

(** X21: generator, then report: after a run of the generator, from any state,
    the report script finds its input, executes both queries and saves the
    twelve report files. *)
Theorem generate_then_main (e : Entropy) (fs : filesystem) :
  executed (main (replay (generate_dummy_data e fs) fs)) =
    [DailySalesQuery; CategoryPerformanceQuery] ∧
  (Exit ∉ main (replay (generate_dummy_data e fs) fs)) ∧
  (saved (main (replay (generate_dummy_data e fs) fs))).*1 = main_report_files.
Proof.
  destruct (generate_leaves_file e fs) as [table Hdata].
  destruct (main_executed _ table Hdata) as [Hq Hx].
  split; [done|]. split; [done|]. by apply main_saved_names with table.
Qed.

Lemma main_report_files_NoDup : NoDup main_report_files.
Proof. by apply (bool_decide_unpack _). Qed.

(** X22: after a complete run the report directory holds every saved file under
    its name, holds exactly the twelve report files besides what was there
    before, and has every other file untouched; starting from an empty or
    absent directory it holds twelve files. *)
Theorem main_report_directory (fs : filesystem) (table : list Transaction) :
  data_file fs = Some table →
  ∃ dir,
    output_dir (replay (main fs) fs) = Some dir ∧
    (∀ file a, (file, a) ∈ saved (main fs) → dir !! file = Some a) ∧
    dom dir =
      dom (default ∅ (output_dir fs)) ∪ list_to_set main_report_files ∧
    (∀ file, file ∉ main_report_files →
             dir !! file = default ∅ (output_dir fs) !! file) ∧
    (default ∅ (output_dir fs) = ∅ → size dir = 12%nat).
Proof.
  intros Hdata. pose proof (main_saved_names fs table Hdata) as Hnames.
  eexists. split; [by rewrite replay_main|]. split_and!.
  - intros file a Hin. apply write_all_lookup_in; [|done].
    rewrite Hnames. apply main_report_files_NoDup.
  - by rewrite write_all_dom, Hnames.
  - intros file Hnot. apply write_all_lookup_notin. by rewrite Hnames.
  - intros Hempty. rewrite <- size_dom, write_all_dom, Hnames, Hempty.
    rewrite dom_empty_L, (left_id_L ∅ (∪)).
    by rewrite size_list_to_set by apply main_report_files_NoDup.
Qed.

Lemma main_report_directory_witness :
  data_file fs_with_data = Some fixture ∧
  ∃ dir, output_dir (replay (main fs_with_data) fs_with_data) = Some dir ∧
         size dir = 12%nat.
Proof.
  assert (Hdata : data_file fs_with_data = Some fixture) by reflexivity.
  destruct (main_report_directory fs_with_data fixture Hdata)
    as (dir & Hdir & _ & _ & _ & Hsize).
  split; [exact Hdata|]. exists dir. split; [exact Hdir|].
  apply Hsize. reflexivity.
Defined.

(** ** The file names of one report *)

Lemma string_app_length (s t : string) :
  String.length (s +:+ t) = (String.length s + String.length t)%nat.
Proof. induction s as [|a s IH]; simpl; [done|]. by rewrite IH. Qed.

Lemma string_app_inj_r (s1 s2 t : string) : s1 +:+ t = s2 +:+ t → s1 = s2.
Proof.
  revert s2. induction s1 as [|a s1 IH]; intros [|b s2] Heq.
  - done.
  - apply (f_equal String.length) in Heq.
    rewrite !string_app_length in Heq. simpl in Heq. lia.
  - apply (f_equal String.length) in Heq.
    rewrite !string_app_length in Heq. simpl in Heq. lia.
  - simpl in Heq. injection Heq as -> Heq. f_equal. by apply IH.
Qed.

Lemma NoDup_classified (df : DataFrame) :
  NoDup (columns df) → NoDup (numerical_cols df ++ categorical_cols df).
Proof.
  intros Hnd. apply NoDup_app. split_and!.
  - by apply NoDup_select_columns.
  - intros name (c1 & Hc1 & Hn1 & Hm1)%elem_of_select_columns
             (c2 & Hc2 & Hn2 & Hm2)%elem_of_select_columns.
    assert (c1 = c2) by (by apply (NoDup_fmap_eq col_name df); try congruence).
    subst c2. destruct (col_dtype c1); simpl in *; discriminate.
  - by apply NoDup_select_columns.
Qed.

Lemma report_file_names (df : DataFrame) (report_title : string) :
  numerical_cols df ≠ [] →
  (saved (automated_exploratory_analysis df report_title)).*1 =
  (λ suffix, report_title +:+ suffix) <$>
    (["_summary.txt"]
     ++ match missing_values df with [] => [] | _ => ["_missing_values.png"] end
     ++ ((λ col, "_univariate_" +:+ col +:+ ".png")
           <$> (numerical_cols df ++ categorical_cols df))
     ++ (if decide (1 < length (numerical_cols df))%nat
         then ["_correlation_matrix.png"] else [])).
Proof.
  intros Hnum. rewrite saved_report by done.
  rewrite !fmap_app, <- !list_fmap_compose.
  f_equal. f_equal; [by destruct (missing_values df)|].
  rewrite app_assoc. f_equal. by case_decide.
Qed.

(** X23: for a table with distinct column labels the files of a report have
    pairwise distinct names, so that every artifact saved is found in the
    report directory under its name after the run. *)
Theorem report_files_distinct
    (df : DataFrame) (report_title : string) (fs : filesystem)
    (dir : gmap string artifact) :
  NoDup (columns df) →
  output_dir fs = Some dir →
  NoDup (saved (automated_exploratory_analysis df report_title)).*1 ∧
  ∃ dir',
    output_dir (replay (automated_exploratory_analysis df report_title) fs)
      = Some dir' ∧
    ∀ file a, (file, a) ∈ saved (automated_exploratory_analysis df report_title) →
              dir' !! file = Some a.
Proof.
  intros Hnd Hdir.
  assert (Hnames : NoDup (saved (automated_exploratory_analysis df report_title)).*1).
  { destruct (decide (numerical_cols df = [])) as [Habort|Hnum].
    { rewrite saved_report_abort by done. apply NoDup_singleton. }
    rewrite report_file_names by done. apply (NoDup_fmap_2 _).
    assert (Huni : NoDup ((λ col, "_univariate_" +:+ col +:+ ".png")
                            <$> (numerical_cols df ++ categorical_cols df))).
    { apply NoDup_fmap_2_strong; [|by apply NoDup_classified].
      intros c1 c2 _ _ Heq. simplify_eq/=. by apply string_app_inj_r in Heq. }
    assert (Hfix : ∀ suffix col,
              suffix ∈ ["_summary.txt"; "_missing_values.png";
                        "_correlation_matrix.png"] →
              suffix ≠ "_univariate_" +:+ col +:+ ".png").
    { intros suffix col Hin Heq.
      repeat (apply elem_of_cons in Hin as [->|Hin]; [discriminate|]).
      by apply not_elem_of_nil in Hin. }
    apply NoDup_app. split_and!.
    - apply NoDup_singleton.
    - intros x ->%list_elem_of_singleton. rewrite !elem_of_app.
      intros [H|[H|H]].
      + destruct (missing_values df); [by apply not_elem_of_nil in H|].
        by apply list_elem_of_singleton in H.
      + apply list_elem_of_fmap in H as (col & Heq & _).
        revert Heq. apply Hfix. left.
      + case_decide; [|by apply not_elem_of_nil in H].
        by apply list_elem_of_singleton in H.
    - apply NoDup_app. split_and!.
      + destruct (missing_values df); [apply NoDup_nil_2|apply NoDup_singleton].
      + intros x Hx. rewrite elem_of_app. intros [H|H].
        * apply list_elem_of_fmap in H as (col & -> & _).
          destruct (missing_values df); [by apply not_elem_of_nil in Hx|].
          apply list_elem_of_singleton in Hx. revert Hx. apply not_eq_sym, Hfix.
          right. left.
        * destruct (missing_values df); [by apply not_elem_of_nil in Hx|].
          apply list_elem_of_singleton in Hx as ->.
          case_decide; [|by apply not_elem_of_nil in H].
          by apply list_elem_of_singleton in H.
      + apply NoDup_app. split_and!; [done| |].
        * intros x (col & -> & _)%list_elem_of_fmap H.
          case_decide; [|by apply not_elem_of_nil in H].
          apply list_elem_of_singleton in H. revert H. apply not_eq_sym, Hfix.
          do 2 right. left.
        * case_decide; [apply NoDup_singleton|apply NoDup_nil_2]. }
  split; [done|]. eexists. split.
  - by rewrite (replay_no_parquet _ _ dir) by (apply report_no_parquet || done).
  - intros file a Hin. by apply write_all_lookup_in.
Qed.

Lemma report_files_distinct_witness :
  NoDup (columns df_amount_city) ∧
  NoDup (saved (automated_exploratory_analysis df_amount_city "sales")).*1.
Proof.
  assert (Hnd : NoDup (columns df_amount_city)).
  { by apply (bool_decide_unpack _). }
  split; [exact Hnd|].
  exact (proj1 (report_files_distinct df_amount_city "sales"
                  {| data_file := None; output_dir := Some ∅ |} ∅
                  Hnd eq_refl)).
Defined.

(** ** Exceptions *)

Lemma report_completes_no_raise (df : DataFrame) (report_title err : string) :
  numerical_cols df ≠ [] →
  Raise err ∉ automated_exploratory_analysis df report_title.
Proof.
  intros Hnum. rewrite report_completes by done. rewrite !elem_of_app.
  intros [H|[H|[H|[H|[H|H]]]]].
  - repeat (apply elem_of_cons in H as [H|H]; [discriminate|]).
    by apply not_elem_of_nil in H.
  - destruct (missing_values df);
      repeat (apply elem_of_cons in H as [H|H]; [discriminate|]);
      by apply not_elem_of_nil in H.
  - by apply list_elem_of_fmap in H as (? & ? & _).
  - by apply list_elem_of_fmap in H as (? & ? & _).
  - case_decide;
      repeat (apply elem_of_cons in H as [H|H]; [discriminate|]);
      by apply not_elem_of_nil in H.
  - repeat (apply elem_of_cons in H as [H|H]; [discriminate|]).
    by apply not_elem_of_nil in H.
Qed.



(** X26: the report script itself never raises: both query results have
    numerical columns and a [sale_date] column that is a datetime column
    already, so in every state of the file system the run has no
    exception, and with the data file in place it ends by closing the
    connection. *)
Theorem main_never_raises (fs : filesystem) :
  (∀ err, Raise err ∉ main fs) ∧
  (is_Some (data_file fs) → last (main fs) = Some Close).
Proof.
  destruct (data_file fs) as [table|] eqn:Hdata.
  - rewrite (main_runs fs table Hdata). split.
    + intros err H. apply elem_of_cons in H as [H|H]; [discriminate|].
      rewrite !elem_of_app in H.
      destruct H as [H|[H|[H|[H|[H|H]]]]];
        try (by repeat (apply elem_of_cons in H as [H|H]; [discriminate|]);
             apply not_elem_of_nil in H).
      * revert H. apply report_completes_no_raise.
        by rewrite df_daily_sales_eq.
      * revert H. by apply report_completes_no_raise.
    + intros _. rewrite app_comm_cons, !app_assoc. apply last_snoc.
  - unfold main. rewrite Hdata. split; [|by intros [? ?]].
    intros err H.
    repeat (apply elem_of_cons in H as [H|H]; [discriminate|]).
    by apply not_elem_of_nil in H.
Qed.

Lemma main_never_raises_witness :
  is_Some (data_file fs_with_data) ∧ last (main fs_with_data) = Some Close.
Proof.
  assert (Hex : is_Some (data_file fs_with_data)) by (by eexists).
  split; [exact Hex|]. exact (proj2 (main_never_raises fs_with_data) Hex).
Defined.
